(** * mpd2mp4: input resolution and download-strategy selection

    A shallow embedding of [main.py].  Python [str] values are modelled as
    Rocq strings whose characters are read as the code points 0..255; on that
    range [strip], [lower], [in], [startswith], [endswith], [replace] and the
    [re.IGNORECASE] comparison below agree with CPython.  The operating
    system (file system, [os.path], [pathlib], FFmpeg discovery) is a record
    of oracles, [World], that the program consults; a run is a function
    from a world and the two replies typed at the prompts to the events it
    causes and the way it ends. *)

From Stdlib Require Import Bool Arith List Ascii String.
Import ListNotations.
Local Open Scope list_scope.
Local Open Scope string_scope.

(** ** Python string primitives *)

(** The double-quote character. *)
Definition dquote : ascii := "034"%char.
(** The single-quote character. *)
Definition squote : ascii := "039"%char.

(** [str.isspace] on one character: TAB..CR, FS..US, SPACE, NEL, NBSP. *)
Definition isspace (c : ascii) : bool :=
  let n := nat_of_ascii c in
  (((9 <=? n) && (n <=? 13)) || ((28 <=? n) && (n <=? 32))
   || (n =? 133) || (n =? 160))%nat.

(** Truth value of a [str]: only the empty string is falsy. *)
Definition truthy (s : string) : bool :=
  match s with EmptyString => false | String _ _ => true end.

Fixpoint lstrip_by (p : ascii -> bool) (s : string) : string :=
  match s with
  | EmptyString => EmptyString
  | String c s' => if p c then lstrip_by p s' else s
  end.

Fixpoint rstrip_by (p : ascii -> bool) (s : string) : string :=
  match s with
  | EmptyString => EmptyString
  | String c s' =>
      match rstrip_by p s' with
      | EmptyString => if p c then EmptyString else String c EmptyString
      | r => String c r
      end
  end.

Definition strip_by (p : ascii -> bool) (s : string) : string :=
  rstrip_by p (lstrip_by p s).

(** [s.strip()] *)
Definition strip (s : string) : string := strip_by isspace s.

Fixpoint mem_char (c : ascii) (chars : string) : bool :=
  match chars with
  | EmptyString => false
  | String d chars' => Ascii.eqb c d || mem_char c chars'
  end.

(** [s.strip(chars)] *)
Definition strip_chars (chars : string) (s : string) : string :=
  strip_by (fun c => mem_char c chars) s.

(** [str.lower] on one character: A..Z and the Latin-1 capitals. *)
Definition lower_char (c : ascii) : ascii :=
  let n := nat_of_ascii c in
  if (((65 <=? n) && (n <=? 90))
      || ((192 <=? n) && (n <=? 222) && negb (n =? 215)))%nat
  then ascii_of_nat (n + 32) else c.

(** [s.lower()] *)
Fixpoint lower (s : string) : string :=
  match s with
  | EmptyString => EmptyString
  | String c s' => String (lower_char c) (lower s')
  end.

(** [s.startswith(p)] *)
Definition startswith (s p : string) : bool := String.prefix p s.

(** [s.endswith(suffix)] *)
Fixpoint endswith (s suffix : string) : bool :=
  String.eqb s suffix
  || match s with
     | EmptyString => false
     | String _ s' => endswith s' suffix
     end.

(** [sub in s] *)
Fixpoint contains (sub s : string) : bool :=
  String.prefix sub s
  || match s with
     | EmptyString => false
     | String _ s' => contains sub s'
     end.

(** [s.replace(old, new)] for a non-empty [old]: occurrences are replaced
    left to right without overlap; [skip] counts the characters of the
    occurrence just replaced that are still to be dropped. *)
Fixpoint replace_from (old new : string) (skip : nat) (s : string) : string :=
  match s with
  | EmptyString => EmptyString
  | String c s' =>
      match skip with
      | S k => replace_from old new k s'
      | O =>
          if String.prefix old s
          then new ++ replace_from old new (String.length old - 1) s'
          else String c (replace_from old new 0 s')
      end
  end.

Definition replace (old new s : string) : string := replace_from old new 0 s.

(** [s[1:]] *)
Definition drop_first (s : string) : string :=
  match s with EmptyString => EmptyString | String _ s' => s' end.

(** ** The regular expressions of the manifest inspection

    The five patterns of [main] use literals, one optional literal,
    [[^c]*], [[^c]+] and a single capture group, all under
    [re.IGNORECASE].  [match_here] is the backtracking matcher for that
    fragment: quantifiers are greedy and give characters back one at a time,
    and the first successful path decides the captured text. *)

Inductive atom : Type :=
| Lit (c : ascii)        (* a literal character, compared ignoring case *)
| OptLit (c : ascii)     (* c? *)
| StarNot (c : ascii)    (* [^c]* *)
| PlusNot (c : ascii)    (* [^c]+ *)
| GroupOpen              (* ( *)
| GroupClose.            (* ) *)

Definition regex := list atom.

(** The text captured so far by group 1, and whether the group is open. *)
Record capture : Type := { capturing : bool; group1 : string }.

Definition no_capture : capture := {| capturing := false; group1 := "" |}.

Definition push (st : capture) (c : ascii) : capture :=
  if capturing st
  then {| capturing := true; group1 := group1 st ++ String c "" |}
  else st.

Definition open_group (st : capture) : capture :=
  {| capturing := true; group1 := "" |}.

Definition close_group (st : capture) : capture :=
  {| capturing := false; group1 := group1 st |}.

(** Comparison of a subject character with a pattern character under
    [re.IGNORECASE] (the compiled pattern holds the lower-case form). *)
Definition ci_eq (c p : ascii) : bool :=
  Ascii.eqb (lower_char c) (lower_char p).

Definition or_else {A : Type} (x y : option A) : option A :=
  match x with Some _ => x | None => y end.

(** Greedy [[^x]*] followed by the continuation [k]. *)
Fixpoint star_not (x : ascii) (k : capture -> string -> option string)
    (st : capture) (s : string) : option string :=
  match s with
  | EmptyString => k st s
  | String c s' =>
      if ci_eq c x then k st s
      else or_else (star_not x k (push st c) s') (k st s)
  end.

Fixpoint match_here (r : regex) (st : capture) (s : string) {struct r}
    : option string :=
  match r with
  | [] => Some (group1 st)
  | Lit p :: r' =>
      match s with
      | EmptyString => None
      | String c s' => if ci_eq c p then match_here r' (push st c) s' else None
      end
  | OptLit p :: r' =>
      match s with
      | EmptyString => match_here r' st s
      | String c s' =>
          if ci_eq c p
          then or_else (match_here r' (push st c) s') (match_here r' st s)
          else match_here r' st s
      end
  | StarNot x :: r' => star_not x (match_here r') st s
  | PlusNot x :: r' =>
      match s with
      | EmptyString => None
      | String c s' =>
          if ci_eq c x then None
          else star_not x (match_here r') (push st c) s'
      end
  | GroupOpen :: r' => match_here r' (open_group st) s
  | GroupClose :: r' => match_here r' (close_group st) s
  end.

(** [re.search(pattern, s, re.IGNORECASE)], reduced to what [main] uses of
    the match object: [None], or [group(1)] of the leftmost match. *)
Fixpoint re_search (r : regex) (s : string) : option string :=
  match match_here r no_capture s with
  | Some g => Some g
  | None =>
      match s with
      | EmptyString => None
      | String _ s' => re_search r s'
      end
  end.

(** A run of literal characters. *)
Fixpoint lits (p : string) : regex :=
  match p with
  | EmptyString => []
  | String c p' => Lit c :: lits p'
  end.

(** [https?://] *)
Definition scheme_re : regex :=
  (lits "http" ++ [OptLit "s"%char] ++ lits "://")%list.

(** [<Tag[^>]*>(https?://[^<]+)</Tag>] *)
Definition element_re (tag : string) : regex :=
  (lits ("<" ++ tag) ++ [StarNot ">"%char] ++ lits ">"
   ++ [GroupOpen] ++ scheme_re ++ [PlusNot "<"%char; GroupClose]
   ++ lits ("</" ++ tag ++ ">"))%list.

(** [name=Q(https?://[^Q]+)Q], where Q stands for the double-quote
    character. *)
Definition attribute_re (name : string) : regex :=
  (lits (name ++ "=") ++ [Lit dquote]
   ++ [GroupOpen] ++ scheme_re ++ [PlusNot dquote; GroupClose]
   ++ [Lit dquote])%list.

(** Line 211. *)
Definition BaseURL_re : regex := element_re "BaseURL".

(** Lines 218-223. *)
Definition media_re : regex := attribute_re "media".
Definition initialization_re : regex := attribute_re "initialization".
Definition sourceURL_re : regex := attribute_re "sourceURL".
Definition SegmentURL_re : regex := element_re "SegmentURL".

Definition media_patterns : list regex :=
  [media_re; initialization_re; sourceURL_re; SegmentURL_re].

(** ** The environment of a run

    A [World] is a snapshot: its answers do not change while a run lasts. *)

(** Result of [import imageio_ffmpeg; imageio_ffmpeg.get_ffmpeg_exe()]. *)
Inductive bundled_ffmpeg : Type :=
| NotInstalled                      (* ImportError, line 17 *)
| LoadFails                         (* any other exception, line 19 *)
| BundledExe (path : string).

(** Result of [shutil.which('ffmpeg')]. *)
Inductive system_ffmpeg : Type :=
| WhichFails                        (* exception, line 30 *)
| Which (found : option string).

(** Result of [open(path, 'r', encoding='utf-8')] followed by [f.read()]. *)
Inductive read_result : Type :=
| ReadOk (text : string)
| ReadOSError                       (* the file cannot be opened or read *)
| ReadUnicodeDecodeError.           (* the bytes are not UTF-8 *)

Record World : Type := {
  os_name : string;                             (* os.name *)
  imageio_ffmpeg : bundled_ffmpeg;
  shutil_which_ffmpeg : system_ffmpeg;
  isfile : string -> bool;                      (* os.path.isfile *)
  path_exists : string -> bool;                 (* os.path.exists *)
  isabs : string -> bool;                       (* os.path.isabs *)
  abspath : string -> string;                   (* os.path.abspath *)
  dirname : string -> string;                   (* os.path.dirname *)
  basename : string -> string;                  (* os.path.basename *)
  join : string -> string -> string;            (* os.path.join *)
  as_uri : string -> option string;             (* pathlib.Path(p).as_uri();
                                                   None: ValueError *)
  getsize : string -> option nat;               (* os.path.getsize;
                                                   None: OSError *)
  read_text : string -> read_result
}.

(** ** The program *)

(** Lines 6-37. *)
Definition get_ffmpeg_path (w : World) : option string :=
  match imageio_ffmpeg w with
  | BundledExe ffmpeg_path => Some ffmpeg_path
  | NotInstalled | LoadFails =>
      match shutil_which_ffmpeg w with
      | Which (Some system_ffmpeg) =>
          if truthy system_ffmpeg then Some system_ffmpeg else None
      | Which None | WhichFails => None
      end
  end.

(** Truth value of [ffmpeg_path], which is [None] or a [str]. *)
Definition available (ffmpeg_path : option string) : bool :=
  match ffmpeg_path with Some p => truthy p | None => false end.

(** Line 59: [strip()], then [strip] of the double quote, then [strip] of
    the single quote. *)
Definition clean_input (user_input : string) : string :=
  strip_chars (String squote "") (strip_chars (String dquote "") (strip user_input)).

Inductive prepared : Type :=
| Returns (url : string)
| RaisesValueError (msg : string)
| RaisesOther.

(** Lines 50-74.  The only exceptions that can leave the function are the two
    [ValueError]s it raises and the [ValueError] of [as_uri]. *)
Definition validate_and_prepare_url (w : World) (user_input : string) : prepared :=
  if negb (truthy user_input) then RaisesValueError "Input cannot be empty"
  else
    let cleaned_input := clean_input user_input in
    if negb (truthy cleaned_input)
    then RaisesValueError "Input cannot be empty after cleaning"
    else if isfile w cleaned_input then
      let abs_path := abspath w cleaned_input in
      match as_uri w abs_path with
      | Some file_uri => Returns file_uri
      | None => RaisesValueError "relative path can't be expressed as a file URI"
      end
    else Returns cleaned_input.

(** Lines 101-107. *)
Definition normalize_output_name (answer : string) : string :=
  let output_name := strip answer in
  let output_name := if negb (truthy output_name) then "output.mp4" else output_name in
  if negb (endswith (lower output_name) ".mp4")
  then output_name ++ ".mp4"
  else output_name.

(** Line 146 (and 131). *)
Definition is_local_file (url : string) : bool := startswith url "file://".

(** Lines 133 and 157: the path taken back out of a [file://] URI. *)
Definition uri_to_path (url : string) : string :=
  replace "file://" "" (replace "file:///" "" url).

(** The options handed to [yt_dlp.YoutubeDL] (lines 118-141); the two hook
    functions are left out. *)
Record ydl_opts : Type := {
  format : string;
  merge_output_format : string;
  outtmpl : string;
  quiet : bool;
  no_warnings : bool;
  enable_file_urls : bool;
  verbose : bool;
  http_headers_Referer : option string;
  ffmpeg_location : option string
}.

(** Lines 118-141.  [None] stands for the [ValueError] that [as_uri] raises
    at line 135 when [base_dir] is not absolute; nothing catches it. *)
Definition build_ydl_opts (w : World) (ffmpeg_path : option string)
    (url output_name : string) : option ydl_opts :=
  let opts referer :=
    {| format := "bestvideo+bestaudio/best";
       merge_output_format := "mp4";
       outtmpl := output_name;
       quiet := true;
       no_warnings := false;
       enable_file_urls := true;
       verbose := false;
       http_headers_Referer := referer;
       ffmpeg_location := if available ffmpeg_path then ffmpeg_path else None |} in
  if startswith url "file://" then
    let local_path := uri_to_path url in
    let base_dir := dirname w local_path in
    match as_uri w base_dir with
    | Some u => Some (opts (Some (u ++ "/")))
    | None => None
    end
  else Some (opts None).

(** Line 200. *)
Definition has_remote_urls (mpd_content : string) : bool :=
  contains "http://" mpd_content || contains "https://" mpd_content.

(** Lines 225-234: the loop over [media_patterns]. *)
Fixpoint scan_patterns (patterns : list regex) (mpd_content : string)
    : option string :=
  match patterns with
  | [] => None
  | pattern :: rest =>
      match re_search pattern mpd_content with
      | Some g =>
          let potential_url := strip g in
          if negb (contains "w3.org" potential_url)
          then Some potential_url
          else scan_patterns rest mpd_content
      | None => scan_patterns rest mpd_content
      end
  end.

(** Lines 210-240: the URL to download from, or [None] when the run gives
    up at line 240. *)
Definition extract_remote_url (mpd_content : string) : option string :=
  match re_search BaseURL_re mpd_content with
  | Some g => Some (strip g)
  | None =>
      match scan_patterns media_patterns mpd_content with
      | Some remote_url => if truthy remote_url then Some remote_url else None
      | None => None
      end
  end.

(** What lines 109-325 do to the outside world before the run ends.  The
    probes made before that point, [os.path.isfile] at line 65 and the
    FFmpeg discovery of lines 6-37, are answers of the [World] and leave no
    event. *)
Inductive event : Type :=
| ListDir (dir : string)                  (* line 175 *)
| CheckExists (path : string)             (* line 186 *)
| GetSize (path : string)                 (* line 191 *)
| ReadManifest (path : string)            (* lines 196-197 *)
| WarnFragmentsMissing                    (* lines 254-256 *)
| WarnCouldNotRead.                       (* line 259 *)

(** How a run ends: with one of its error messages, or by handing over to
    yt-dlp or to the FFmpeg subprocess. *)
Inductive outcome : Type :=
| InvalidInputError (msg : string)        (* line 87 *)
| InputProcessingError                    (* line 90 *)
| FfmpegRequiredError                     (* line 153 *)
| ManifestNotFoundError                   (* line 187 *)
| UnresolvableManifestError               (* lines 237-240 *)
| DelegateToDownloader (targetUrl : string) (opts : ydl_opts)
                                          (* lines 246 and 317 *)
| InvokeMediaTool (cmd : list string) (workingDirectory : string)
                                          (* line 280 *)
| UncaughtException.

(** Lines 266-274. *)
Definition ffmpeg_cmd (ffmpeg_path mpd_filename output_abs : string) : list string :=
  [ffmpeg_path;
   "-protocol_whitelist"; "file,http,https,tcp,tls,crypto";
   "-allowed_extensions"; "ALL";
   "-i"; mpd_filename;
   "-c"; "copy";
   "-y";
   output_abs].

(** Lines 156-160. *)
Definition local_path_of (w : World) (url : string) : string :=
  let local_path := uri_to_path url in
  if String.eqb (os_name w) "nt" && startswith local_path "/"
  then drop_first local_path
  else local_path.

(** Line 185. *)
Definition mpd_full_path_of (w : World) (url : string) : string :=
  join w (dirname w (abspath w (local_path_of w url)))
         (basename w (local_path_of w url)).

(** Lines 148-308: the branch for [file://] URLs. *)
Definition process_local (w : World) (ffmpeg_path : option string)
    (opts : ydl_opts) (url output_name : string) : list event * outcome :=
  match ffmpeg_path with
  | None => ([], FfmpegRequiredError)
  | Some ffmpeg =>
    if negb (truthy ffmpeg) then ([], FfmpegRequiredError)
    else
      let local_path := local_path_of w url in
      let mpd_dir := dirname w (abspath w local_path) in
      let mpd_filename := basename w local_path in
      let output_abs := abspath w output_name in
      let mpd_full_path := join w mpd_dir mpd_filename in
      if negb (path_exists w mpd_full_path)
      then ([ListDir mpd_dir; CheckExists mpd_full_path], ManifestNotFoundError)
      else
        match getsize w mpd_full_path with
        | None =>
            ([ListDir mpd_dir; CheckExists mpd_full_path; GetSize mpd_full_path],
             UncaughtException)
        | Some _ =>
            let seen :=
              [ListDir mpd_dir; CheckExists mpd_full_path;
               GetSize mpd_full_path; ReadManifest mpd_full_path] in
            let run_ffmpeg :=
              InvokeMediaTool (ffmpeg_cmd ffmpeg mpd_filename output_abs) mpd_dir in
            match read_text w mpd_full_path with
            | ReadOk mpd_content =>
                if has_remote_urls mpd_content then
                  match extract_remote_url mpd_content with
                  | Some remote_url => (seen, DelegateToDownloader remote_url opts)
                  | None => (seen, UnresolvableManifestError)
                  end
                else ((seen ++ [WarnFragmentsMissing])%list, run_ffmpeg)
            | ReadOSError | ReadUnicodeDecodeError =>
                ((seen ++ [WarnCouldNotRead])%list, run_ffmpeg)
            end
        end
  end.

(** Lines 109-325: everything after the two prompts. *)
Definition process (w : World) (ffmpeg_path : option string)
    (url output_name : string) : list event * outcome :=
  match build_ydl_opts w ffmpeg_path url output_name with
  | None => ([], UncaughtException)
  | Some opts =>
      if is_local_file url
      then process_local w ffmpeg_path opts url output_name
      else ([], DelegateToDownloader url opts)
  end.

(** Lines 76-325; [user_input] and [answer] are the replies to the two
    prompts. *)
Definition main (w : World) (user_input answer : string) : list event * outcome :=
  let ffmpeg_path := get_ffmpeg_path w in
  match validate_and_prepare_url w user_input with
  | RaisesValueError msg => ([], InvalidInputError msg)
  | RaisesOther => ([], InputProcessingError)
  | Returns url => process w ffmpeg_path url (normalize_output_name answer)
  end.

(** ** Vocabulary of the statements *)

(** [p] occurs in [s] when letter case is ignored. *)
Definition ci_contains (p s : string) : bool := contains (lower p) (lower s).

(** The capture after the characters of [a] were consumed one by one. *)
Fixpoint push_all (st : capture) (a : string) : capture :=
  match a with
  | EmptyString => st
  | String c a' => push_all (push st c) a'
  end.

(** The loop of lines 226-234 passes over [pattern]: it has no match in the
    text, or its first match holds [w3.org]. *)
Definition discarded (pattern : regex) (mpd_content : string) : bool :=
  match re_search pattern mpd_content with
  | Some g => contains "w3.org" (strip g)
  | None => true
  end.

(** The file that a run on [url] opens has the text [content]: it passes
    the checks of lines 186 and 191 and is read at lines 196-197. *)
Definition reads_manifest (w : World) (url content : string) : Prop :=
  path_exists w (mpd_full_path_of w url) = true
  /\ getsize w (mpd_full_path_of w url) <> None
  /\ read_text w (mpd_full_path_of w url) = ReadOk content.

(** The file that a run on [url] opens is there, but reading it as UTF-8
    text fails. *)
Definition manifest_unreadable (w : World) (url : string) : Prop :=
  path_exists w (mpd_full_path_of w url) = true
  /\ getsize w (mpd_full_path_of w url) <> None
  /\ (read_text w (mpd_full_path_of w url) = ReadOSError
      \/ read_text w (mpd_full_path_of w url) = ReadUnicodeDecodeError).

(** The events of a local run up to and including the read of the
    manifest. *)
Definition inspection_events (w : World) (url : string) : list event :=
  let mpd_dir := dirname w (abspath w (local_path_of w url)) in
  [ListDir mpd_dir; CheckExists (mpd_full_path_of w url);
   GetSize (mpd_full_path_of w url); ReadManifest (mpd_full_path_of w url)].

(** The subprocess of lines 266-288 for a run on [url]. *)
Definition media_tool (w : World) (ffmpeg url output_name : string) : outcome :=
  InvokeMediaTool
    (ffmpeg_cmd ffmpeg (basename w (local_path_of w url)) (abspath w output_name))
    (dirname w (abspath w (local_path_of w url))).

(** What the Python library documents of [os.path.abspath] and
    [pathlib.Path.as_uri]: [abspath] returns an absolute name of the same
    file, and the URI of an absolute path starts with [file://]. *)
Record PathLaws (w : World) : Prop := {
  abspath_absolute : forall p, isabs w (abspath w p) = true;
  abspath_same_file : forall p, isfile w (abspath w p) = isfile w p;
  as_uri_absolute :
    forall p, isabs w p = true -> exists rest, as_uri w p = Some ("file://" ++ rest)
}.

(** The last character of [s]. *)
Fixpoint last_char (s : string) : option ascii :=
  match s with
  | EmptyString => None
  | String c s' =>
      match last_char s' with Some d => Some d | None => Some c end
  end.

(** Every character of [s] satisfies [p]. *)
Fixpoint all_chars (p : ascii -> bool) (s : string) : bool :=
  match s with
  | EmptyString => true
  | String c s' => p c && all_chars p s'
  end.

(** The trimming as section 4.1 of the specification words it: every
    leading and trailing character that is whitespace or a quote character
    is removed. *)
Definition spec_trim (raw : string) : string :=
  strip_by (fun c => isspace c || Ascii.eqb c dquote || Ascii.eqb c squote) raw.

(** ** A small Windows machine

    Drive-letter paths, both separators accepted, current directory
    [C:\work]; the files are listed with what reading them gives. *)
Module Nt.

Definition backslash : ascii := "092"%char.
Definition slash : ascii := "/"%char.

Definition is_sep (c : ascii) : bool := Ascii.eqb c slash || Ascii.eqb c backslash.

Fixpoint map_sep (sep : ascii) (p : string) : string :=
  match p with
  | EmptyString => EmptyString
  | String c p' => String (if is_sep c then sep else c) (map_sep sep p')
  end.

Definition nt_isabs (p : string) : bool :=
  match p with
  | String _ (String d (String c _)) => Ascii.eqb d ":"%char && is_sep c
  | _ => false
  end.

Definition cwd : string := "C:" ++ String backslash "work".

Definition nt_abspath (p : string) : string :=
  if nt_isabs p then map_sep backslash p
  else cwd ++ String backslash (map_sep backslash p).

(** The text before and after the last separator. *)
Fixpoint split_last (p : string) : option (string * string) :=
  match p with
  | EmptyString => None
  | String c p' =>
      match split_last p' with
      | Some (h, t) => Some (String c h, t)
      | None => if is_sep c then Some (EmptyString, p') else None
      end
  end.

Definition nt_dirname (p : string) : string :=
  match split_last p with Some (h, _) => h | None => EmptyString end.

Definition nt_basename (p : string) : string :=
  match split_last p with Some (_, t) => t | None => p end.

Definition nt_join (a b : string) : string :=
  if nt_isabs b then b else a ++ String backslash b.

Definition nt_as_uri (p : string) : option string :=
  if nt_isabs p then Some ("file:///" ++ map_sep slash p) else None.

Definition disk := list (string * read_result).

Fixpoint lookup (d : disk) (p : string) : option read_result :=
  match d with
  | [] => None
  | (q, r) :: d' => if String.eqb q p then Some r else lookup d' p
  end.

Definition on_disk (d : disk) (p : string) : bool :=
  match lookup d (nt_abspath p) with Some _ => true | None => false end.

Definition machine (d : disk) (bundled : bundled_ffmpeg) (sys : system_ffmpeg)
    : World :=
  {| os_name := "nt";
     imageio_ffmpeg := bundled;
     shutil_which_ffmpeg := sys;
     isfile := on_disk d;
     path_exists := on_disk d;
     isabs := nt_isabs;
     abspath := nt_abspath;
     dirname := nt_dirname;
     basename := nt_basename;
     join := nt_join;
     as_uri := nt_as_uri;
     getsize := fun p =>
       match lookup d (nt_abspath p) with
       | Some (ReadOk text) => Some (String.length text)
       | Some _ => Some 0
       | None => None
       end;
     read_text := fun p =>
       match lookup d (nt_abspath p) with
       | Some r => r
       | None => ReadOSError
       end |}.

Definition ffmpeg_exe : string := "C:" ++ String backslash "ffmpeg.exe".

(** [C:\m\a.mpd] *)
Definition a_mpd : string :=
  "C:" ++ String backslash "m" ++ String backslash "a.mpd".

(** A machine with FFmpeg on the PATH whose only file is [C:\m\a.mpd]. *)
Definition with_manifest (r : read_result) : World :=
  machine [(a_mpd, r)] NotInstalled (Which (Some ffmpeg_exe)).

(** The same machine without any FFmpeg. *)
Definition without_ffmpeg (r : read_result) : World :=
  machine [(a_mpd, r)] NotInstalled (Which None).

Definition attr (name value : string) : string :=
  name ++ "=" ++ String dquote value ++ String dquote "".

(** The URI that [validate_and_prepare_url] returns for [C:\m\a.mpd]. *)
Definition a_uri : string := "file:///C:/m/a.mpd".

(** The options of a run on [a_uri] with FFmpeg found. *)
Definition opts_for (output_name : string) : ydl_opts :=
  {| format := "bestvideo+bestaudio/best";
     merge_output_format := "mp4";
     outtmpl := output_name;
     quiet := true;
     no_warnings := false;
     enable_file_urls := true;
     verbose := false;
     http_headers_Referer := Some "file:///C:/m/";
     ffmpeg_location := Some ffmpeg_exe |}.

(** A manifest with a media attribute before and after its BaseURL. *)
Definition before_BaseURL : string :=
  "<MPD><SegmentTemplate " ++ attr "initialization" "https://cdn.example.org/init.mp4"
  ++ "/><Period>".
Definition after_BaseURL : string :=
  "<SegmentTemplate " ++ attr "media" "https://cdn.example.org/seg1.ts"
  ++ "/></Period></MPD>".
Definition manifest_with_BaseURL : string :=
  before_BaseURL ++ "<BaseURL>https://example.com/x</BaseURL>" ++ after_BaseURL.

(** A manifest whose only URLs are on w3.org. *)
Definition manifest_w3_only : string :=
  "<MPD " ++ attr "xmlns:xsi" "http://www.w3.org/2001/XMLSchema-instance"
  ++ "><SegmentTemplate " ++ attr "media" "http://www.w3.org/ns/example"
  ++ "/></MPD>".

(** A manifest whose only URL is a BaseURL on w3.org. *)
Definition manifest_w3_BaseURL : string :=
  "<MPD><BaseURL>http://www.w3.org/x</BaseURL></MPD>".

(** A manifest with relative segment names only. *)
Definition manifest_relative : string :=
  "<MPD><SegmentTemplate " ++ attr "media" "seg1.m4s" ++ "/></MPD>".

(** A manifest whose first media attribute is on w3.org and whose second
    is not. *)
Definition after_first_media : string :=
  " " ++ attr "media" "https://cdn.example.org/seg1.ts" ++ "/></MPD>".
Definition manifest_w3_first : string :=
  "<MPD><S " ++ attr "media" "http://www.w3.org/a" ++ after_first_media.

(** Three characters: a double quote between two single quotes. *)
Definition quoted_quote : string :=
  String squote (String dquote (String squote "")).

End Nt.

(** ** The progress hook

    yt-dlp calls the hook with a dict; the keys the hook looks at hold
    strings.  A dict is modelled by its items, the first item of a key
    being the one that counts. *)

Definition pydict := list (string * string).

(** [d.get(key)] *)
Fixpoint dict_get (d : pydict) (key : string) : option string :=
  match d with
  | [] => None
  | (k, v) :: d' => if String.eqb k key then Some v else dict_get d' key
  end.

(** [d.get(key, default)] *)
Definition dict_get_default (d : pydict) (key default : string) : string :=
  match dict_get d key with Some v => v | None => default end.

(** What a call of the hook does: it raises [KeyError], leaves the standard
    output alone, or writes [text] to it. *)
Inductive hook_result : Type :=
| KeyError
| Silent
| Stdout (text : string).

Definition carriage_return : ascii := "013"%char.
Definition newline : ascii := "010"%char.

(** Lines 39-48. *)
Definition progress_hook (d : pydict) : hook_result :=
  match dict_get d "status" with
  | None => KeyError
  | Some status =>
      if String.eqb status "downloading" then
        let p := dict_get_default d "_percent_str" "0%" in
        let s := dict_get_default d "_speed_str" "N/A" in
        let e := dict_get_default d "_eta_str" "N/A" in
        Stdout (String carriage_return
                  ("[Downloading] Progress: " ++ p ++ " | Speed: " ++ s
                   ++ " | ETA: " ++ e))
      else if String.eqb status "finished" then
        Stdout (String newline
                  ("[Finished] Download complete. Processing/Merging..."
                   ++ String newline ""))
      else Silent
  end.

(** No group opens in [r]. *)
Fixpoint no_group_open (r : regex) : bool :=
  match r with
  | [] => true
  | GroupOpen :: _ => false
  | _ :: r' => no_group_open r'
  end.

(** [u] begins with [http://] or [https://], letter case apart. *)
Definition has_http_scheme (u : string) : bool :=
  startswith (lower u) "http://" || startswith (lower u) "https://".

(** ** Two manifests whose BaseURL element the pattern of line 211 misses *)

(** The end tag is written with a space before its [>]. *)
Definition manifest_spaced_end_tag : string :=
  "<MPD><BaseURL>https://example.com/x</BaseURL ></MPD>".

(** An attribute value of the start tag holds a [>]. *)
Definition manifest_gt_in_attribute : string :=
  "<MPD><BaseURL " ++ Nt.attr "x" "a>b" ++ ">https://example.com/x</BaseURL><S "
  ++ Nt.attr "media" "https://cdn.example.org/seg1.ts" ++ "/></MPD>".

(** A manifest whose BaseURL is followed by white space inside the
    element. *)
Definition manifest_padded_BaseURL : string :=
  Nt.before_BaseURL
  ++ "<BaseURL>https://example.com/x " ++ String "010"%char "</BaseURL>"
  ++ Nt.after_BaseURL.

(** ** A small POSIX machine

    Paths with [/] only, current directory [/home/u]; [as_uri] is given for
    paths without characters that it would escape. *)
Module Posix.

Definition posix_isabs (p : string) : bool := startswith p "/".

Definition cwd : string := "/home/u".

Definition posix_abspath (p : string) : string :=
  if posix_isabs p then p else cwd ++ "/" ++ p.

(** The text before and after the last [/]. *)
Fixpoint rsplit (p : string) : option (string * string) :=
  match p with
  | EmptyString => None
  | String c p' =>
      match rsplit p' with
      | Some (h, t) => Some (String c h, t)
      | None => if Ascii.eqb c "/" then Some (EmptyString, p') else None
      end
  end.

Definition posix_dirname (p : string) : string :=
  match rsplit p with
  | Some (EmptyString, _) => "/"
  | Some (h, _) => h
  | None => EmptyString
  end.

Definition posix_basename (p : string) : string :=
  match rsplit p with Some (_, t) => t | None => p end.

Definition posix_join (a b : string) : string :=
  if posix_isabs b then b else a ++ "/" ++ b.

Definition posix_as_uri (p : string) : option string :=
  if posix_isabs p then Some ("file://" ++ p) else None.

Definition on_disk (d : Nt.disk) (p : string) : bool :=
  match Nt.lookup d (posix_abspath p) with Some _ => true | None => false end.

Definition machine (d : Nt.disk) (bundled : bundled_ffmpeg) (sys : system_ffmpeg)
    : World :=
  {| os_name := "posix";
     imageio_ffmpeg := bundled;
     shutil_which_ffmpeg := sys;
     isfile := on_disk d;
     path_exists := on_disk d;
     isabs := posix_isabs;
     abspath := posix_abspath;
     dirname := posix_dirname;
     basename := posix_basename;
     join := posix_join;
     as_uri := posix_as_uri;
     getsize := fun p =>
       match Nt.lookup d (posix_abspath p) with
       | Some (ReadOk text) => Some (String.length text)
       | Some _ => Some 0
       | None => None
       end;
     read_text := fun p =>
       match Nt.lookup d (posix_abspath p) with
       | Some r => r
       | None => ReadOSError
       end |}.

(** A machine with FFmpeg on the PATH whose only file is
    [/home/u/a.mpd]. *)
Definition with_manifest (r : read_result) : World :=
  machine [("/home/u/a.mpd", r)] NotInstalled (Which (Some "/usr/bin/ffmpeg")).

End Posix.

(** ** Facts about the string primitives *)

Section StringFacts.

Lemma append_assoc (a b c : string) : (a ++ b) ++ c = a ++ (b ++ c).
Proof. induction a as [|x a IH]; simpl; [reflexivity | now rewrite IH]. Qed.

Lemma append_nil_r (a : string) : a ++ "" = a.
Proof. induction a as [|x a IH]; simpl; [reflexivity | now rewrite IH]. Qed.

Lemma lower_append (a b : string) : lower (a ++ b) = lower a ++ lower b.
Proof. induction a as [|x a IH]; simpl; [reflexivity | now rewrite IH]. Qed.

Lemma prefix_append (p t : string) : String.prefix p (p ++ t) = true.
Proof.
  induction p as [|x p IH]; simpl; [now destruct t|].
  destruct (ascii_dec x x) as [_|ne]; [exact IH | now elim ne].
Qed.

Lemma prefix_cons (a b : ascii) (p s : string) :
  String.prefix (String a p) (String b s) = Ascii.eqb a b && String.prefix p s.
Proof.
  simpl. destruct (ascii_dec a b) as [e|ne].
  - subst. now rewrite Ascii.eqb_refl.
  - apply Ascii.eqb_neq in ne. now rewrite ne.
Qed.

Lemma contains_here (sub t : string) : contains sub (sub ++ t) = true.
Proof.
  destruct sub as [|x sub]; [destruct t; reflexivity|].
  cbn [append contains]. change (String x (sub ++ t)) with (String x sub ++ t).
  now rewrite prefix_append.
Qed.

Lemma contains_append_r (sub a b : string) :
  contains sub b = true -> contains sub (a ++ b) = true.
Proof.
  intros H. induction a as [|x a IH]; [exact H|].
  cbn [append contains]. rewrite IH. apply orb_true_r.
Qed.

Lemma contains_middle (sub a b : string) : contains sub (a ++ sub ++ b) = true.
Proof. apply contains_append_r, contains_here. Qed.

Lemma contains_cons_false (sub : string) (c : ascii) (s : string) :
  contains sub (String c s) = false ->
  String.prefix sub (String c s) = false /\ contains sub s = false.
Proof. cbn [contains]. intros H. now apply orb_false_elim in H. Qed.

(** A prefix test that succeeds on [pre ++ c :: t] for a pattern without
    [c] never looks past [pre]. *)
Lemma prefix_cut (q pre : string) (c : ascii) (t : string) :
  mem_char c q = false ->
  String.prefix q (pre ++ String c t) = true ->
  String.prefix q pre = true.
Proof.
  revert pre. induction q as [|a q IH]; intros pre Hq H.
  - now destruct pre.
  - cbn [mem_char] in Hq. apply orb_false_elim in Hq as [Hca Hq].
    destruct pre as [|b pre].
    + cbn [append] in H. rewrite prefix_cons in H.
      apply andb_true_iff in H as [H _].
      rewrite Ascii.eqb_sym, Hca in H. discriminate.
    + cbn [append] in H. rewrite prefix_cons in *.
      apply andb_true_iff in H as [Hab H].
      rewrite Hab. cbn. now apply IH.
Qed.

Lemma truthy_nonempty (s : string) : truthy s = true <-> s <> "".
Proof. destruct s; cbn; split; congruence. Qed.

Lemma has_remote_urls_scheme (scheme pre post : string) :
  scheme = "http://" \/ scheme = "https://" ->
  has_remote_urls (pre ++ scheme ++ post) = true.
Proof.
  unfold has_remote_urls. intros [-> | ->]; rewrite contains_middle.
  - reflexivity.
  - apply orb_true_r.
Qed.

End StringFacts.

(** ** Facts about the matcher *)

Section MatcherFacts.

Lemma ci_eq_refl (c : ascii) : ci_eq c c = true.
Proof. apply Ascii.eqb_refl. Qed.

(** Ignoring case changes nothing for the three delimiters of the
    patterns. *)
Lemma ci_eq_delimiter (x c : ascii) :
  x = ">"%char \/ x = "<"%char \/ x = dquote ->
  ci_eq c x = Ascii.eqb c x.
Proof.
  intros [-> | [-> | ->]];
    destruct c as [[|] [|] [|] [|] [|] [|] [|] [|]]; reflexivity.
Qed.

Lemma push_all_idle (st : capture) (a : string) :
  capturing st = false -> push_all st a = st.
Proof.
  revert st. induction a as [|c a IH]; intros st H; [reflexivity|].
  cbn [push_all]. unfold push. rewrite H. now apply IH.
Qed.

Lemma push_all_capturing (g a : string) :
  push_all {| capturing := true; group1 := g |} a
  = {| capturing := true; group1 := g ++ a |}.
Proof.
  revert g. induction a as [|c a IH]; intros g; cbn [push_all].
  - now rewrite append_nil_r.
  - unfold push. cbn. rewrite IH, append_assoc. reflexivity.
Qed.

Lemma push_all_append (st : capture) (a b : string) :
  push_all st (a ++ b) = push_all (push_all st a) b.
Proof. revert st. induction a as [|c a IH]; intros st; cbn; auto. Qed.

(** Literals match themselves. *)
Lemma match_lits (p : string) (r : regex) (st : capture) (s : string) :
  match_here (lits p ++ r)%list st (p ++ s) = match_here r (push_all st p) s.
Proof.
  revert st. induction p as [|c p IH]; intros st; [reflexivity|].
  cbn [lits List.app append match_here push_all].
  now rewrite ci_eq_refl, IH.
Qed.

(** A match of a pattern that begins with the literals [p] begins with [p],
    letter case apart. *)
Lemma match_lits_prefix (p : string) (r : regex) (st : capture) (s g : string) :
  match_here (lits p ++ r)%list st s = Some g ->
  String.prefix (lower p) (lower s) = true.
Proof.
  revert st s. induction p as [|c p IH]; intros st s H.
  - now destruct s.
  - cbn [lits List.app match_here] in H. destruct s as [|d s]; [discriminate|].
    destruct (ci_eq d c) eqn:E; [|discriminate].
    cbn [lower]. rewrite prefix_cons. apply IH in H. rewrite H.
    unfold ci_eq in E. rewrite Ascii.eqb_sym, E. reflexivity.
Qed.

(** The greedy [[^x]*] runs up to the first [x]; when the rest of the
    pattern matches from there, that is the match. *)
Lemma star_not_stop (x : ascii) (k : capture -> string -> option string)
    (st : capture) (a t g : string) :
  x = ">"%char \/ x = "<"%char \/ x = dquote ->
  mem_char x a = false ->
  k (push_all st a) (String x t) = Some g ->
  star_not x k st (a ++ String x t) = Some g.
Proof.
  intros Hx. revert st. induction a as [|c a IH]; intros st Ha Hk.
  - cbn [append star_not]. now rewrite ci_eq_refl.
  - cbn [mem_char] in Ha. apply orb_false_elim in Ha as [Hc Ha].
    cbn [append star_not]. rewrite (ci_eq_delimiter x c Hx), Ascii.eqb_sym, Hc.
    rewrite (IH (push st c) Ha Hk). reflexivity.
Qed.

Lemma plus_not_stop (x : ascii) (r : regex) (st : capture) (a t g : string) :
  x = ">"%char \/ x = "<"%char \/ x = dquote ->
  a <> "" ->
  mem_char x a = false ->
  match_here r (push_all st a) (String x t) = Some g ->
  match_here (PlusNot x :: r) st (a ++ String x t) = Some g.
Proof.
  intros Hx Hne Ha Hk. destruct a as [|c a]; [congruence|].
  cbn [mem_char] in Ha. apply orb_false_elim in Ha as [Hc Ha].
  cbn [append match_here]. rewrite (ci_eq_delimiter x c Hx), Ascii.eqb_sym, Hc.
  now apply star_not_stop.
Qed.

(** [https?://] matches both schemes. *)
Lemma match_scheme (scheme : string) (r : regex) (st : capture) (s g : string) :
  scheme = "http://" \/ scheme = "https://" ->
  match_here r (push_all st scheme) s = Some g ->
  match_here (scheme_re ++ r)%list st (scheme ++ s) = Some g.
Proof.
  unfold scheme_re. intros Hs H.
  rewrite <- !List.app_assoc.
  destruct Hs as [-> | ->].
  - change ("http://" ++ s) with ("http" ++ "://" ++ s).
    rewrite match_lits. cbn [List.app match_here append].
    change (ci_eq ":" "s") with false. cbn iota.
    change (String ":" (String "/" (String "/" s))) with ("://" ++ s).
    rewrite match_lits, <- push_all_append. exact H.
  - change ("https://" ++ s) with ("http" ++ String "s" ("://" ++ s)).
    rewrite match_lits. cbn [List.app match_here].
    change (ci_eq "s" "s") with true. cbn iota.
    rewrite match_lits.
    change (push_all (push (push_all st "http") "s") "://")
      with (push_all st "https://").
    rewrite H. reflexivity.
Qed.

End MatcherFacts.

(** ** The definitions at work *)

Section Evaluations.
Import Nt.

Example strip_keeps_inner_space : strip "  a b  " = "a b".
Proof. reflexivity. Qed.

Example replace_is_not_overlapping : replace "aa" "b" "aaaaa" = "bba".
Proof. reflexivity. Qed.

Example uri_to_path_windows : uri_to_path "file:///C:/m/a.mpd" = "C:/m/a.mpd".
Proof. reflexivity. Qed.

(** The root slash of a POSIX path goes with the prefix. *)
Example uri_to_path_posix : uri_to_path "file:///home/u/a.mpd" = "home/u/a.mpd".
Proof. reflexivity. Qed.

Example BaseURL_ignores_case_and_keeps_attributes :
  re_search BaseURL_re
    "<MPD><baseurl id='1'>HTTPS://example.com/x </BaseURL><BaseURL>http://b</BaseURL>"
  = Some "HTTPS://example.com/x ".
Proof. reflexivity. Qed.

(** An empty URL, a malformed scheme, a child element and a space in the
    end tag all make the BaseURL pattern fail. *)
Example BaseURL_near_misses :
  re_search BaseURL_re
    ("<BaseURL>http://</BaseURL><BaseURL>https:/x</BaseURL>"
     ++ "<BaseURL>https://y<a/></BaseURL><BaseURL>http://z</BaseURL >")
  = None.
Proof. reflexivity. Qed.

(** The namespace declaration on w3.org is matched by none of the
    patterns, and the media attribute gives the URL. *)
Example media_url_is_extracted :
  extract_remote_url
    ("<MPD " ++ attr "xmlns" "http://www.w3.org/2001/XMLSchema"
     ++ "><SegmentTemplate " ++ attr "media" "https://cdn.example.org/seg1.ts"
     ++ "/></MPD>")
  = Some "https://cdn.example.org/seg1.ts".
Proof. reflexivity. Qed.

(** The BaseURL branch of lines 212-214 has no w3.org filter. *)
Example BaseURL_on_w3_is_used :
  extract_remote_url "<MPD><BaseURL>http://www.w3.org/x</BaseURL></MPD>"
  = Some "http://www.w3.org/x".
Proof. reflexivity. Qed.

(** An upper-case scheme is matched by the patterns but not seen by the
    test of line 200. *)
Example upper_case_scheme_is_not_remote :
  has_remote_urls "<BaseURL>HTTPS://EXAMPLE.COM/X</BaseURL>" = false
  /\ re_search BaseURL_re "<BaseURL>HTTPS://EXAMPLE.COM/X</BaseURL>"
     = Some "HTTPS://EXAMPLE.COM/X".
Proof. split; reflexivity. Qed.

Example get_ffmpeg_path_prefers_bundled :
  get_ffmpeg_path (machine [] (BundledExe "bundled") (Which (Some "system")))
  = Some "bundled"
  /\ get_ffmpeg_path (machine [] LoadFails (Which (Some "system"))) = Some "system"
  /\ get_ffmpeg_path (machine [] NotInstalled WhichFails) = None.
Proof. repeat split. Qed.

(** A run from the prompts to the downloader, by way of the BaseURL of a
    local manifest. *)
Example main_delegates_BaseURL :
  main (with_manifest (ReadOk manifest_with_BaseURL))
    (String dquote a_mpd ++ String dquote "") "video"
  = (inspection_events (with_manifest (ReadOk manifest_with_BaseURL)) a_uri,
     DelegateToDownloader "https://example.com/x" (opts_for "video.mp4")).
Proof. reflexivity. Qed.

(** A run on a remote URL lists, checks and reads nothing after line 65. *)
Example main_delegates_remote_url :
  fst (main (without_ffmpeg ReadOSError) " https://example.com/live.mpd " "")
  = []
  /\ exists opts,
       snd (main (without_ffmpeg ReadOSError) " https://example.com/live.mpd " "")
       = DelegateToDownloader "https://example.com/live.mpd" opts
       /\ outtmpl opts = "output.mp4".
Proof. split; [reflexivity | eexists; split; reflexivity]. Qed.

(** A manifest that has gone by line 186 ends the run there. *)
Example main_manifest_not_found :
  main (with_manifest ReadOSError) "file:///C:/m/b.mpd" "video"
  = ([ListDir ("C:" ++ String backslash "m");
      CheckExists ("C:" ++ String backslash "m" ++ String backslash "b.mpd")],
     ManifestNotFoundError).
Proof. reflexivity. Qed.

End Evaluations.

(** ** The cleaning of line 59 against the trimming of the specification *)

Section Trimming.

Lemma all_chars_weaken (p q : ascii -> bool) (s : string) :
  (forall c, p c = true -> q c = true) ->
  all_chars p s = true -> all_chars q s = true.
Proof.
  intros Hpq. induction s as [|c s IH]; [reflexivity|].
  cbn [all_chars]. intros H. apply andb_true_iff in H as [Hc Hs].
  now rewrite (Hpq c Hc), IH.
Qed.

Lemma lstrip_by_all (p : ascii -> bool) (s : string) :
  all_chars p s = true -> lstrip_by p s = "".
Proof.
  induction s as [|c s IH]; [reflexivity|].
  cbn [all_chars lstrip_by]. intros H. apply andb_true_iff in H as [Hc Hs].
  now rewrite Hc, IH.
Qed.

Lemma strip_by_all (p : ascii -> bool) (s : string) :
  all_chars p s = true -> strip_by p s = "".
Proof. intros H. unfold strip_by. now rewrite lstrip_by_all. Qed.

(** What [rstrip_by] and [lstrip_by] remove satisfies [p]. *)
Lemma rstrip_by_removed (p q : ascii -> bool) (s : string) :
  all_chars q (rstrip_by p s) = true ->
  all_chars (fun c => p c || q c) s = true.
Proof.
  induction s as [|c s IH]; [reflexivity|].
  cbn [rstrip_by all_chars].
  destruct (rstrip_by p s) as [|d r] eqn:E.
  - destruct (p c) eqn:Hc; cbn [all_chars]; intros H.
    + now rewrite IH.
    + apply andb_true_iff in H as [Hq _]. now rewrite Hq, IH.
  - cbn [all_chars]. intros H. apply andb_true_iff in H as [Hq Hr].
    rewrite Hq, orb_true_r. cbn. apply IH. exact Hr.
Qed.

Lemma lstrip_by_removed (p q : ascii -> bool) (s : string) :
  all_chars (fun c => p c || q c) (lstrip_by p s) = true ->
  all_chars (fun c => p c || q c) s = true.
Proof.
  induction s as [|c s IH]; [reflexivity|].
  cbn [lstrip_by]. destruct (p c) eqn:Hc; [|trivial].
  intros H. cbn [all_chars]. now rewrite Hc, IH.
Qed.

Lemma strip_by_removed (p q : ascii -> bool) (s : string) :
  all_chars q (strip_by p s) = true ->
  all_chars (fun c => p c || q c) s = true.
Proof.
  intros H. apply lstrip_by_removed, rstrip_by_removed. exact H.
Qed.

(** Whatever line 59 empties, the trimming of the specification empties
    too; the counterexample of C8 shows that the converse fails. *)
Lemma clean_input_empty_spec_trim (user_input : string) :
  clean_input user_input = "" -> spec_trim user_input = "".
Proof.
  unfold clean_input, strip_chars, strip, spec_trim. intros H.
  apply strip_by_all.
  assert (H0 : all_chars (fun _ => false)
                 (strip_by (fun c => mem_char c (String squote ""))
                    (strip_by (fun c => mem_char c (String dquote ""))
                       (strip_by isspace user_input))) = true)
    by now rewrite H.
  apply strip_by_removed, strip_by_removed, strip_by_removed in H0.
  revert H0. apply all_chars_weaken. intros c. cbn [mem_char].
  rewrite !orb_false_r. intros Hc.
  apply orb_true_iff in Hc as [Hc | Hc]; [now rewrite Hc|].
  apply orb_true_iff in Hc as [Hc | Hc]; rewrite Hc;
    now rewrite ?orb_true_r.
Qed.

End Trimming.

Section PatternFacts.

Variables (scheme body : string).
Hypothesis scheme_ok : scheme = "http://" \/ scheme = "https://".
Hypothesis body_nonempty : body <> "".

Lemma captured_url :
  push_all (push_all (open_group no_capture) scheme) body
  = {| capturing := true; group1 := scheme ++ body |}.
Proof.
  unfold open_group. now rewrite !push_all_capturing, append_assoc.
Qed.

Lemma match_end_of_group (p post : string) :
  match_here (GroupClose :: lits p)
    (push_all (push_all (open_group no_capture) scheme) body) (p ++ post)
  = Some (scheme ++ body).
Proof.
  cbn [match_here]. rewrite <- (List.app_nil_r (lits p)), match_lits.
  rewrite captured_url, push_all_idle by reflexivity. reflexivity.
Qed.

(** [<Tag attrs>url</Tag>] at the start of the text is matched by the
    element pattern, which captures the URL. *)
Lemma match_element (tag attrs post : string) :
  mem_char ">" attrs = false ->
  mem_char "<" body = false ->
  match_here (element_re tag) no_capture
    (("<" ++ tag) ++ attrs ++ ">" ++ scheme ++ body ++ ("</" ++ tag ++ ">") ++ post)
  = Some (scheme ++ body).
Proof.
  intros Hattrs Hbody. unfold element_re.
  rewrite match_lits, push_all_idle by reflexivity.
  cbn [List.app match_here].
  change (">" ++ scheme ++ body ++ ("</" ++ tag ++ ">") ++ post)
    with (String ">" (scheme ++ body ++ ("</" ++ tag ++ ">") ++ post)).
  apply star_not_stop; [now left | exact Hattrs |].
  rewrite push_all_idle by reflexivity.
  cbn [lits List.app match_here]. rewrite ci_eq_refl.
  change (push no_capture ">") with no_capture.
  apply match_scheme; [exact scheme_ok|].
  change (("</" ++ tag ++ ">") ++ post)
    with (String "<" (("/" ++ tag ++ ">") ++ post)).
  apply plus_not_stop; [right; now left | exact body_nonempty | exact Hbody |].
  change (String "<" (("/" ++ tag ++ ">") ++ post))
    with (("</" ++ tag ++ ">") ++ post).
  apply match_end_of_group.
Qed.

(** [name=Q url Q] at the start of the text is matched by the attribute
    pattern, which captures the URL. *)
Lemma match_attribute (name post : string) :
  mem_char dquote body = false ->
  match_here (attribute_re name) no_capture
    ((name ++ "=") ++ String dquote (scheme ++ body ++ String dquote post))
  = Some (scheme ++ body).
Proof.
  intros Hbody. unfold attribute_re.
  rewrite match_lits, push_all_idle by reflexivity.
  cbn [List.app match_here]. rewrite ci_eq_refl.
  change (push no_capture dquote) with no_capture.
  apply match_scheme; [exact scheme_ok|].
  apply plus_not_stop; [right; now right | exact body_nonempty | exact Hbody |].
  change (String dquote post) with (String dquote "" ++ post).
  apply (match_end_of_group (String dquote "") post).
Qed.

End PatternFacts.

Section SearchFacts.

(** The search reports the match at the start of the text when there is
    one. *)
Lemma re_search_here (r : regex) (s g : string) :
  match_here r no_capture s = Some g -> re_search r s = Some g.
Proof. intros H. destruct s; cbn [re_search]; now rewrite H. Qed.

(** A match somewhere in the text makes the search succeed. *)
Lemma re_search_found (r : regex) (pre t g : string) :
  match_here r no_capture t = Some g ->
  exists g', re_search r (pre ++ t) = Some g'.
Proof.
  intros H. induction pre as [|c pre IH].
  - exists g. now apply re_search_here.
  - cbn [append re_search].
    destruct (match_here r no_capture (String c (pre ++ t))) as [g1|].
    + now exists g1.
    + exact IH.
Qed.

Lemma re_search_next (r : regex) (c : ascii) (s : string) :
  match_here r no_capture (String c s) = None ->
  re_search r (String c s) = re_search r s.
Proof. intros H. cbn [re_search]. now rewrite H. Qed.

(** A pattern that begins with the literals [p0 :: ptail], where [p0] does
    not occur again in [ptail], cannot match inside [pre] or across its end
    when [pre] holds no occurrence of those literals and the text goes on
    with [p0]. *)
Lemma re_search_skip (r : regex) (p0 : ascii) (ptail pre : string)
    (c : ascii) (t : string) :
  (forall s g, match_here r no_capture s = Some g ->
               String.prefix (String p0 ptail) (lower s) = true) ->
  mem_char p0 ptail = false ->
  lower_char c = p0 ->
  contains (String p0 ptail) (lower pre) = false ->
  re_search r (pre ++ String c t) = re_search r (String c t).
Proof.
  intros Hr Hp0 Hc. induction pre as [|b pre IH]; intros Hpre; [reflexivity|].
  cbn [lower] in Hpre. apply contains_cons_false in Hpre as [Hhere Hpre].
  cbn [append]. rewrite re_search_next; [now apply IH|].
  destruct (match_here r no_capture (String b (pre ++ String c t))) as [g|] eqn:E;
    [|reflexivity].
  exfalso. apply Hr in E. cbn [lower] in E.
  rewrite prefix_cons in E, Hhere. apply andb_true_iff in E as [Eb E].
  rewrite Eb in Hhere. cbn in Hhere.
  rewrite lower_append in E. cbn [lower] in E. rewrite Hc in E.
  apply prefix_cut in E; [congruence | exact Hp0].
Qed.

Lemma element_re_prefix (tag s g : string) :
  match_here (element_re tag) no_capture s = Some g ->
  String.prefix (lower ("<" ++ tag)) (lower s) = true.
Proof. unfold element_re. apply match_lits_prefix. Qed.

Lemma attribute_re_prefix (name s g : string) :
  match_here (attribute_re name) no_capture s = Some g ->
  String.prefix (lower (name ++ "=")) (lower s) = true.
Proof. unfold attribute_re. apply match_lits_prefix. Qed.

(** The first [<BaseURL ...>url</BaseURL>] of a text is what the search for
    the BaseURL pattern captures. *)
Lemma search_first_BaseURL (pre attrs scheme body post : string) :
  scheme = "http://" \/ scheme = "https://" ->
  body <> "" ->
  mem_char ">" attrs = false ->
  mem_char "<" body = false ->
  ci_contains "<BaseURL" pre = false ->
  re_search BaseURL_re
    (pre ++ "<BaseURL" ++ attrs ++ ">" ++ scheme ++ body ++ "</BaseURL>" ++ post)
  = Some (scheme ++ body).
Proof.
  intros Hs Hb Ha Hbody Hpre.
  change ("<BaseURL" ++ attrs ++ ">" ++ scheme ++ body ++ "</BaseURL>" ++ post)
    with (String "<" ("BaseURL" ++ attrs ++ ">" ++ scheme ++ body ++ "</BaseURL>" ++ post)).
  rewrite (re_search_skip BaseURL_re "<" "baseurl").
  - apply re_search_here.
    apply (match_element scheme body Hs Hb "BaseURL" attrs post Ha Hbody).
  - intros s g H. apply (element_re_prefix "BaseURL" s g H).
  - reflexivity.
  - reflexivity.
  - exact Hpre.
Qed.

(** The first [media=Q url Q] of a text is what the search for the media
    pattern captures. *)
Lemma search_first_media (pre scheme body post : string) :
  scheme = "http://" \/ scheme = "https://" ->
  body <> "" ->
  mem_char dquote body = false ->
  ci_contains "media=" pre = false ->
  re_search media_re
    (pre ++ "media=" ++ String dquote (scheme ++ body ++ String dquote post))
  = Some (scheme ++ body).
Proof.
  intros Hs Hb Hbody Hpre.
  change ("media=" ++ String dquote (scheme ++ body ++ String dquote post))
    with (String "m" ("edia=" ++ String dquote (scheme ++ body ++ String dquote post))).
  rewrite (re_search_skip media_re "m" "edia=").
  - apply re_search_here.
    apply (match_attribute scheme body Hs Hb "media" post Hbody).
  - intros s g H. apply (attribute_re_prefix "media" s g H).
  - reflexivity.
  - reflexivity.
  - exact Hpre.
Qed.

End SearchFacts.

(** ** The example machine obeys the path laws *)

Section NtFacts.
Import Nt.

Lemma is_sep_cases (c : ascii) :
  is_sep c = true -> c = slash \/ c = backslash.
Proof.
  unfold is_sep. intros H. apply orb_true_iff in H as [H|H];
    apply Ascii.eqb_eq in H; auto.
Qed.

Lemma is_sep_map (sep c : ascii) :
  is_sep sep = true -> is_sep (if is_sep c then sep else c) = is_sep c.
Proof. intros H. destruct (is_sep c) eqn:E; congruence. Qed.

Lemma colon_map (c : ascii) :
  Ascii.eqb (if is_sep c then backslash else c) ":" = Ascii.eqb c ":".
Proof.
  destruct (is_sep c) eqn:E; [|reflexivity].
  apply is_sep_cases in E as [-> | ->]; reflexivity.
Qed.

Lemma nt_isabs_map_sep (p : string) :
  nt_isabs (map_sep backslash p) = nt_isabs p.
Proof.
  destruct p as [|a [|d [|c p]]]; try reflexivity.
  cbn [map_sep nt_isabs]. now rewrite colon_map, is_sep_map.
Qed.

Lemma map_sep_idempotent (p : string) :
  map_sep backslash (map_sep backslash p) = map_sep backslash p.
Proof.
  induction p as [|c p IH]; [reflexivity|].
  cbn [map_sep]. rewrite IH, is_sep_map by reflexivity.
  destruct (is_sep c); reflexivity.
Qed.

Lemma nt_abspath_absolute (p : string) : nt_isabs (nt_abspath p) = true.
Proof.
  unfold nt_abspath. destruct (nt_isabs p) eqn:E.
  - now rewrite nt_isabs_map_sep.
  - reflexivity.
Qed.

Lemma nt_abspath_idempotent (p : string) :
  nt_abspath (nt_abspath p) = nt_abspath p.
Proof.
  unfold nt_abspath at 1. rewrite nt_abspath_absolute.
  unfold nt_abspath. destruct (nt_isabs p).
  - apply map_sep_idempotent.
  - cbn [cwd append map_sep]. now rewrite map_sep_idempotent.
Qed.

Lemma machine_laws (d : disk) (bundled : bundled_ffmpeg) (sys : system_ffmpeg) :
  PathLaws (machine d bundled sys).
Proof.
  split; cbn [isabs abspath isfile as_uri machine].
  - apply nt_abspath_absolute.
  - intros p. unfold on_disk. now rewrite nt_abspath_idempotent.
  - intros p H. unfold nt_as_uri. rewrite H.
    exists ("/" ++ map_sep slash p). reflexivity.
Qed.

End NtFacts.

(** ** White space behind a URL *)

Section TrailingWhitespace.

Variable p : ascii -> bool.

Lemma rstrip_by_trailing (x t : string) :
  all_chars p t = true -> rstrip_by p (x ++ t) = rstrip_by p x.
Proof.
  intros Ht. induction x as [|c x IH].
  - cbn [append]. induction t as [|d t IHt]; [reflexivity|].
    cbn [all_chars] in Ht. apply andb_true_iff in Ht as [Hd Ht].
    cbn [rstrip_by]. now rewrite (IHt Ht), Hd.
  - cbn [append rstrip_by]. now rewrite IH.
Qed.

Lemma rstrip_by_plain_end (x : string) :
  (forall c, last_char x = Some c -> p c = false) -> rstrip_by p x = x.
Proof.
  induction x as [|c x IH]; [reflexivity|]. intros H.
  cbn [rstrip_by]. cbn [last_char] in H.
  destruct x as [|d x].
  - cbn. now rewrite (H c eq_refl).
  - rewrite IH; [reflexivity|].
    intros e He. apply H. now rewrite He.
Qed.

Lemma last_char_append (a b : string) :
  last_char (a ++ b) =
    match last_char b with Some c => Some c | None => last_char a end.
Proof.
  induction a as [|c a IH]; cbn [append last_char].
  - now destruct (last_char b).
  - rewrite IH. now destruct (last_char b), (last_char a).
Qed.

End TrailingWhitespace.

(** [strip] takes the white space behind a URL and nothing else. *)
Lemma strip_url (scheme core trailing : string) :
  scheme = "http://" \/ scheme = "https://" ->
  all_chars isspace trailing = true ->
  (forall c, last_char core = Some c -> isspace c = false) ->
  strip (scheme ++ core ++ trailing) = scheme ++ core.
Proof.
  intros Hs Ht Hcore. unfold strip, strip_by.
  assert (Hl : lstrip_by isspace (scheme ++ core ++ trailing)
               = scheme ++ core ++ trailing)
    by (destruct Hs; subst scheme; reflexivity).
  rewrite Hl, <- append_assoc, (rstrip_by_trailing isspace _ _ Ht).
  apply rstrip_by_plain_end. intros c. rewrite last_char_append.
  destruct (last_char core) as [d|] eqn:E.
  - intros H. inversion H. subst. now apply Hcore.
  - destruct Hs; subst scheme; intros H; inversion H; reflexivity.
Qed.

(** ** The run on a [file://] URL *)

Lemma scan_patterns_discarded (patterns : list regex) (mpd_content : string) :
  forallb (fun pattern => discarded pattern mpd_content) patterns = true ->
  scan_patterns patterns mpd_content = None.
Proof.
  induction patterns as [|pattern rest IH]; intros H; [reflexivity|].
  cbn [forallb] in H. apply andb_true_iff in H as [Hp Hrest].
  cbn [scan_patterns]. unfold discarded in Hp.
  destruct (re_search pattern mpd_content) as [g|].
  - rewrite Hp. cbn. now apply IH.
  - now apply IH.
Qed.

Section LocalRun.

Variables (w : World) (ffmpeg url output_name : string) (opts : ydl_opts).
Hypothesis ffmpeg_found : truthy ffmpeg = true.

(** With FFmpeg at hand, the run on a manifest that is read as
    [mpd_content] ends as lines 199-256 say. *)
Lemma process_local_readable (mpd_content : string) :
  reads_manifest w url mpd_content ->
  process_local w (Some ffmpeg) opts url output_name =
    if has_remote_urls mpd_content then
      match extract_remote_url mpd_content with
      | Some remote_url =>
          (inspection_events w url, DelegateToDownloader remote_url opts)
      | None => (inspection_events w url, UnresolvableManifestError)
      end
    else ((inspection_events w url ++ [WarnFragmentsMissing])%list,
          media_tool w ffmpeg url output_name).
Proof.
  intros (Hexists & Hsize & Hread).
  unfold process_local. rewrite ffmpeg_found.
  fold (mpd_full_path_of w url). cbn [negb]. rewrite Hexists. cbn [negb].
  destruct (getsize w (mpd_full_path_of w url)) as [size|]; [|congruence].
  rewrite Hread.
  destruct (has_remote_urls mpd_content); [|reflexivity].
  destruct (extract_remote_url mpd_content); reflexivity.
Qed.

(** C1, as amended: when the manifest is there but cannot be read or decoded
    as UTF-8, the run prints the warning of line 259 and goes on to start
    the FFmpeg subprocess in the manifest's directory. *)
Theorem unreadable_manifest_falls_through :
  manifest_unreadable w url ->
  process_local w (Some ffmpeg) opts url output_name =
    ((inspection_events w url ++ [WarnCouldNotRead])%list,
     media_tool w ffmpeg url output_name).
Proof.
  intros (Hexists & Hsize & Hread).
  unfold process_local. rewrite ffmpeg_found.
  fold (mpd_full_path_of w url). cbn [negb]. rewrite Hexists. cbn [negb].
  destruct (getsize w (mpd_full_path_of w url)) as [size|]; [|congruence].
  destruct Hread as [-> | ->]; reflexivity.
Qed.

(** C3, as amended: a manifest that holds a BaseURL element written as the
    pattern of line 211 wants it (start tag without [>] inside, a text of
    http:// or https:// and more characters other than [<], the end tag
    right behind it) is delegated to the downloader with the stripped
    capture of the BaseURL pattern, whatever else, media attributes
    included, stands before or after the element; when no BaseURL tag opens
    earlier in the text, the target is this element's URL without the white
    space behind it. *)
Theorem BaseURL_takes_precedence
    (mpd_content pre attrs scheme core trailing post : string) :
  reads_manifest w url mpd_content ->
  mpd_content =
    pre ++ "<BaseURL" ++ attrs ++ ">" ++ scheme ++ (core ++ trailing)
        ++ "</BaseURL>" ++ post ->
  scheme = "http://" \/ scheme = "https://" ->
  core ++ trailing <> "" ->
  mem_char ">" attrs = false ->
  mem_char "<" (core ++ trailing) = false ->
  all_chars isspace trailing = true ->
  (forall c, last_char core = Some c -> isspace c = false) ->
  (exists g,
     re_search BaseURL_re mpd_content = Some g
     /\ process_local w (Some ffmpeg) opts url output_name =
          ([ListDir (dirname w (abspath w (local_path_of w url)));
            CheckExists (mpd_full_path_of w url);
            GetSize (mpd_full_path_of w url);
            ReadManifest (mpd_full_path_of w url)],
           DelegateToDownloader (strip g) opts))
  /\ (ci_contains "<BaseURL" pre = false ->
      process_local w (Some ffmpeg) opts url output_name =
        ([ListDir (dirname w (abspath w (local_path_of w url)));
          CheckExists (mpd_full_path_of w url);
          GetSize (mpd_full_path_of w url);
          ReadManifest (mpd_full_path_of w url)],
         DelegateToDownloader (scheme ++ core) opts)).
Proof.
  intros Hreads -> Hscheme Hbody Hattrs Hurl Htrail Hcore.
  destruct (re_search_found BaseURL_re pre
              ("<BaseURL" ++ attrs ++ ">" ++ scheme ++ (core ++ trailing)
               ++ "</BaseURL>" ++ post)
              (scheme ++ (core ++ trailing))) as [g Hg].
  { apply (match_element scheme (core ++ trailing) Hscheme Hbody "BaseURL"
             attrs post Hattrs Hurl). }
  assert (Hrun : process_local w (Some ffmpeg) opts url output_name =
                 (inspection_events w url, DelegateToDownloader (strip g) opts)).
  { rewrite (process_local_readable _ Hreads).
    assert (Hremote : has_remote_urls
              (pre ++ "<BaseURL" ++ attrs ++ ">" ++ scheme ++ (core ++ trailing)
                   ++ "</BaseURL>" ++ post) = true).
    { rewrite <- (append_assoc attrs ">"), <- (append_assoc "<BaseURL"),
        <- (append_assoc pre).
      now apply has_remote_urls_scheme. }
    rewrite Hremote. unfold extract_remote_url. now rewrite Hg. }
  split.
  - exists g. split; [exact Hg | exact Hrun].
  - intros Hfirst. rewrite Hrun.
    rewrite search_first_BaseURL in Hg by assumption.
    inversion Hg. now rewrite (strip_url scheme core trailing Hscheme Htrail Hcore).
Qed.

(** C4, as amended: a manifest that mentions http:// or https:// but has no
    match of the BaseURL pattern, and whose media, initialization, sourceURL
    and SegmentURL patterns each have no match or a first match on w3.org,
    ends the run with the message of lines 237-239; nothing is downloaded
    and no subprocess is started. *)
Theorem no_candidate_is_unresolvable (mpd_content : string) :
  reads_manifest w url mpd_content ->
  has_remote_urls mpd_content = true ->
  re_search BaseURL_re mpd_content = None ->
  forallb (fun pattern => discarded pattern mpd_content) media_patterns = true ->
  process_local w (Some ffmpeg) opts url output_name =
    (inspection_events w url, UnresolvableManifestError).
Proof.
  intros Hreads Hremote Hbase Hall.
  rewrite (process_local_readable _ Hreads), Hremote.
  unfold extract_remote_url.
  now rewrite Hbase, (scan_patterns_discarded _ _ Hall).
Qed.

(** C5: a manifest whose text holds neither http:// nor https:// is handed
    to the FFmpeg subprocess, started in the manifest's directory with the
    arguments of lines 266-274, the manifest's file name as input and the
    absolute output path last, whatever the text is. *)
Theorem no_remote_urls_invokes_media_tool (mpd_content : string) :
  reads_manifest w url mpd_content ->
  contains "http://" mpd_content = false ->
  contains "https://" mpd_content = false ->
  process_local w (Some ffmpeg) opts url output_name =
    ([ListDir (dirname w (abspath w (local_path_of w url)));
      CheckExists (mpd_full_path_of w url);
      GetSize (mpd_full_path_of w url);
      ReadManifest (mpd_full_path_of w url);
      WarnFragmentsMissing],
     InvokeMediaTool
       [ffmpeg;
        "-protocol_whitelist"; "file,http,https,tcp,tls,crypto";
        "-allowed_extensions"; "ALL";
        "-i"; basename w (local_path_of w url);
        "-c"; "copy";
        "-y";
        abspath w output_name]
       (dirname w (abspath w (local_path_of w url)))).
Proof.
  intros Hreads Hhttp Hhttps.
  rewrite (process_local_readable _ Hreads).
  unfold has_remote_urls. rewrite Hhttp, Hhttps. reflexivity.
Qed.

End LocalRun.

(** How [main] reaches the local branch: the reply resolves to a [file://]
    URL and line 135 builds the Referer without raising. *)
Lemma main_local (w : World) (user_input answer url : string) (opts : ydl_opts) :
  validate_and_prepare_url w user_input = Returns url ->
  is_local_file url = true ->
  build_ydl_opts w (get_ffmpeg_path w) url (normalize_output_name answer)
    = Some opts ->
  main w user_input answer =
    process_local w (get_ffmpeg_path w) opts url (normalize_output_name answer).
Proof.
  intros Hret Hlocal Hopts. unfold main, process.
  now rewrite Hret, Hopts, Hlocal.
Qed.

(** Line 135 raises when the directory taken out of the URL is not
    absolute; nothing catches it. *)
Lemma referer_needs_absolute_directory
    (w : World) (ffmpeg_path : option string) (url output_name : string) :
  is_local_file url = true ->
  as_uri w (dirname w (uri_to_path url)) = None ->
  process w ffmpeg_path url output_name = ([], UncaughtException).
Proof.
  intros Hlocal Huri. unfold process, build_ydl_opts.
  unfold is_local_file in Hlocal. now rewrite Hlocal, Huri.
Qed.

(** ** The prompts and the choice of the branch *)



(** C6: without a usable FFmpeg, the branch for [file://] URLs stops with
    the message of line 153 before it lists, checks or reads anything, and
    so does every run that reaches it; a run on any other URL goes to the
    downloader all the same. *)
Theorem ffmpeg_required_for_local_only (w : World) :
  available (get_ffmpeg_path w) = false ->
  (forall opts url output_name,
     process_local w (get_ffmpeg_path w) opts url output_name
     = ([], FfmpegRequiredError))
  /\ (forall user_input answer url opts,
        validate_and_prepare_url w user_input = Returns url ->
        is_local_file url = true ->
        build_ydl_opts w (get_ffmpeg_path w) url (normalize_output_name answer)
          = Some opts ->
        main w user_input answer = ([], FfmpegRequiredError))
  /\ (forall user_input answer url,
        validate_and_prepare_url w user_input = Returns url ->
        is_local_file url = false ->
        exists opts,
          main w user_input answer = ([], DelegateToDownloader url opts)
          /\ ffmpeg_location opts = None).
Proof.
  intros Hnone.
  assert (Hlocal : forall opts url output_name,
             process_local w (get_ffmpeg_path w) opts url output_name
             = ([], FfmpegRequiredError)).
  { intros opts url output_name. unfold process_local.
    destruct (get_ffmpeg_path w) as [ffmpeg|]; [|reflexivity].
    cbn [available] in Hnone. now rewrite Hnone. }
  split; [exact Hlocal|]. split.
  - intros user_input answer url opts Hret Hurl Hopts.
    rewrite (main_local w user_input answer url opts Hret Hurl Hopts).
    apply Hlocal.
  - intros user_input answer url Hret Hremote.
    unfold main, process, build_ydl_opts. rewrite Hret.
    unfold is_local_file in Hremote. rewrite Hremote.
    unfold is_local_file. rewrite Hremote, Hnone.
    eexists. split; reflexivity.
Qed.

(** C7, as amended: the reply is first stripped of surrounding whitespace;
    an empty result becomes output.mp4, a result that does not end in .mp4
    in any letter case gets .mp4 appended, and a result that does is kept
    as it is. *)
Theorem normalize_output_name_cases (answer : string) :
  (strip answer = "" -> normalize_output_name answer = "output.mp4")
  /\ (strip answer <> "" -> endswith (lower (strip answer)) ".mp4" = false ->
      normalize_output_name answer = strip answer ++ ".mp4")
  /\ (endswith (lower (strip answer)) ".mp4" = true ->
      normalize_output_name answer = strip answer).
Proof.
  unfold normalize_output_name. repeat split.
  - intros ->. reflexivity.
  - intros Hne Hsuffix. apply truthy_nonempty in Hne.
    now rewrite Hne; cbn [negb]; rewrite Hsuffix.
  - intros Hsuffix. destruct (strip answer) as [|c t] eqn:E; [discriminate|].
    cbn [truthy negb]. now rewrite Hsuffix.
Qed.

(** C8, as amended: an input that is empty, or that the cleaning of line 59
    (whitespace, then double quotes, then single quotes, once each) leaves
    empty, makes [validate_and_prepare_url] raise [ValueError], and the run
    ends with that message. *)
Theorem empty_after_cleaning_is_invalid (w : World) (user_input : string) :
  clean_input user_input = "" ->
  exists msg,
    validate_and_prepare_url w user_input = RaisesValueError msg
    /\ forall answer, main w user_input answer = ([], InvalidInputError msg).
Proof.
  intros Hclean.
  assert (H : exists msg, validate_and_prepare_url w user_input
                          = RaisesValueError msg).
  { unfold validate_and_prepare_url.
    destruct (truthy user_input); cbn [negb]; [|eauto].
    rewrite Hclean. cbn. eauto. }
  destruct H as [msg H]. exists msg. split; [exact H|].
  intros answer. unfold main. now rewrite H.
Qed.

(** C9: the cleaning is one pass in a fixed order, whitespace, then double
    quotes, then single quotes.  Whitespace inside single quotes survives,
    quotes nested inside the outermost single quotes survive, and cleaning
    the result again changes it. *)
Theorem clean_input_single_pass :
  (forall user_input,
     clean_input user_input =
       strip_chars (String squote "")
         (strip_chars (String dquote "") (strip user_input)))
  /\ clean_input "'  x  '" = "  x  "
  /\ clean_input (String squote (String dquote "'x'" ++ String dquote "'"))
     = String dquote "'x'" ++ String dquote ""
  /\ clean_input (clean_input "'  x  '") <> clean_input "'  x  '".
Proof.
  repeat split; try reflexivity. vm_compute. discriminate.
Qed.

(** C10: when the first media attribute with an http:// or https:// value
    holds a w3.org URL, the search for the media pattern reports that value
    and the loop goes on to the other three patterns; whatever follows,
    later media attributes included, is never taken through the media
    pattern. *)
Theorem first_media_match_decides
    (mpd_content pre scheme body post : string) :
  mpd_content =
    pre ++ "media=" ++ String dquote (scheme ++ body ++ String dquote post) ->
  scheme = "http://" \/ scheme = "https://" ->
  body <> "" ->
  mem_char dquote body = false ->
  ci_contains "media=" pre = false ->
  contains "w3.org" (strip (scheme ++ body)) = true ->
  re_search media_re mpd_content = Some (scheme ++ body)
  /\ scan_patterns media_patterns mpd_content =
     scan_patterns [initialization_re; sourceURL_re; SegmentURL_re] mpd_content
  /\ (forall pattern rest g,
        re_search pattern mpd_content = Some g ->
        contains "w3.org" (strip g) = true ->
        scan_patterns (pattern :: rest) mpd_content =
        scan_patterns rest mpd_content).
Proof.
  intros -> Hscheme Hbody Hquote Hfirst Hw3.
  pose proof (search_first_media pre scheme body post Hscheme Hbody Hquote Hfirst)
    as Hsearch.
  split; [exact Hsearch|]. split.
  - unfold media_patterns. cbn [scan_patterns]. now rewrite Hsearch, Hw3.
  - intros pattern rest g Hg Hg3. cbn [scan_patterns]. now rewrite Hg, Hg3.
Qed.

(** ** The statements on the example machine *)

Section Examples.
Import Nt.

Lemma unreadable_manifest_falls_through_witness :
  process_local (with_manifest ReadUnicodeDecodeError) (Some ffmpeg_exe)
    (opts_for "video.mp4") a_uri "video.mp4" =
    ((inspection_events (with_manifest ReadUnicodeDecodeError) a_uri
      ++ [WarnCouldNotRead])%list,
     media_tool (with_manifest ReadUnicodeDecodeError) ffmpeg_exe a_uri "video.mp4").
Proof.
  apply (unreadable_manifest_falls_through
           (with_manifest ReadUnicodeDecodeError) ffmpeg_exe a_uri "video.mp4"
           (opts_for "video.mp4")).
  - reflexivity.
  - repeat split; [vm_compute; discriminate | right; reflexivity].
Defined.

(** C1 fails as stated: the manifest cannot be decoded, and the run still
    starts FFmpeg on it. *)
Lemma undecodable_manifest_reaches_ffmpeg :
  validate_and_prepare_url (with_manifest ReadUnicodeDecodeError) a_mpd
    = Returns a_uri
  /\ read_text (with_manifest ReadUnicodeDecodeError)
       (mpd_full_path_of (with_manifest ReadUnicodeDecodeError) a_uri)
     = ReadUnicodeDecodeError
  /\ main (with_manifest ReadUnicodeDecodeError) a_mpd "video" =
       ((inspection_events (with_manifest ReadUnicodeDecodeError) a_uri
         ++ [WarnCouldNotRead])%list,
        InvokeMediaTool
          (ffmpeg_cmd ffmpeg_exe "a.mpd" (cwd ++ String backslash "video.mp4"))
          ("C:" ++ String backslash "m")).
Proof. repeat split. Qed.



Lemma BaseURL_takes_precedence_witness :
  (exists g,
     re_search BaseURL_re manifest_padded_BaseURL = Some g
     /\ process_local (with_manifest (ReadOk manifest_padded_BaseURL))
          (Some ffmpeg_exe) (opts_for "video.mp4") a_uri "video.mp4" =
          ([ListDir ("C:" ++ String backslash "m");
            CheckExists a_mpd; GetSize a_mpd; ReadManifest a_mpd],
           DelegateToDownloader (strip g) (opts_for "video.mp4")))
  /\ (ci_contains "<BaseURL" before_BaseURL = false ->
      process_local (with_manifest (ReadOk manifest_padded_BaseURL))
        (Some ffmpeg_exe) (opts_for "video.mp4") a_uri "video.mp4" =
        ([ListDir ("C:" ++ String backslash "m");
          CheckExists a_mpd; GetSize a_mpd; ReadManifest a_mpd],
         DelegateToDownloader "https://example.com/x" (opts_for "video.mp4"))).
Proof.
  apply (BaseURL_takes_precedence
           (with_manifest (ReadOk manifest_padded_BaseURL)) ffmpeg_exe a_uri
           "video.mp4" (opts_for "video.mp4") eq_refl
           manifest_padded_BaseURL before_BaseURL "" "https://" "example.com/x"
           (" " ++ String "010"%char "") after_BaseURL).
  - repeat split. vm_compute. discriminate.
  - reflexivity.
  - right. reflexivity.
  - discriminate.
  - reflexivity.
  - reflexivity.
  - reflexivity.
  - intros c H. vm_compute in H. inversion H. reflexivity.
Defined.

(** C3 fails as stated: a BaseURL element whose end tag holds a space gives
    no URL at all, and one whose start tag holds a [>] inside an attribute
    value leaves the media attribute to decide. *)
Lemma BaseURL_element_is_missed :
  process_local (with_manifest (ReadOk manifest_spaced_end_tag))
    (Some ffmpeg_exe) (opts_for "video.mp4") a_uri "video.mp4" =
    ([ListDir ("C:" ++ String backslash "m");
      CheckExists a_mpd; GetSize a_mpd; ReadManifest a_mpd],
     UnresolvableManifestError)
  /\ process_local (with_manifest (ReadOk manifest_gt_in_attribute))
       (Some ffmpeg_exe) (opts_for "video.mp4") a_uri "video.mp4" =
       ([ListDir ("C:" ++ String backslash "m");
         CheckExists a_mpd; GetSize a_mpd; ReadManifest a_mpd],
        DelegateToDownloader "https://cdn.example.org/seg1.ts"
          (opts_for "video.mp4")).
Proof. split; reflexivity. Qed.

Lemma no_candidate_is_unresolvable_witness :
  process_local (with_manifest (ReadOk manifest_w3_only)) (Some ffmpeg_exe)
    (opts_for "video.mp4") a_uri "video.mp4" =
    (inspection_events (with_manifest (ReadOk manifest_w3_only)) a_uri,
     UnresolvableManifestError).
Proof.
  apply (no_candidate_is_unresolvable
           (with_manifest (ReadOk manifest_w3_only)) ffmpeg_exe a_uri
           "video.mp4" (opts_for "video.mp4") eq_refl manifest_w3_only).
  - repeat split. vm_compute. discriminate.
  - reflexivity.
  - reflexivity.
  - reflexivity.
Defined.

(** C4 fails as stated: the only candidate of this manifest is a BaseURL on
    w3.org, the four patterns have no match, and the run hands that URL to
    the downloader. *)
Lemma w3_BaseURL_is_delegated :
  has_remote_urls manifest_w3_BaseURL = true
  /\ re_search BaseURL_re manifest_w3_BaseURL = Some "http://www.w3.org/x"
  /\ contains "w3.org" "http://www.w3.org/x" = true
  /\ map (fun pattern => re_search pattern manifest_w3_BaseURL) media_patterns
     = [None; None; None; None]
  /\ process_local (with_manifest (ReadOk manifest_w3_BaseURL)) (Some ffmpeg_exe)
       (opts_for "video.mp4") a_uri "video.mp4" =
       (inspection_events (with_manifest (ReadOk manifest_w3_BaseURL)) a_uri,
        DelegateToDownloader "http://www.w3.org/x" (opts_for "video.mp4")).
Proof. repeat split. Qed.

Lemma no_remote_urls_invokes_media_tool_witness :
  process_local (with_manifest (ReadOk manifest_relative)) (Some ffmpeg_exe)
    (opts_for "video.mp4") a_uri "video.mp4" =
    ([ListDir ("C:" ++ String backslash "m");
      CheckExists a_mpd; GetSize a_mpd; ReadManifest a_mpd;
      WarnFragmentsMissing],
     InvokeMediaTool
       [ffmpeg_exe;
        "-protocol_whitelist"; "file,http,https,tcp,tls,crypto";
        "-allowed_extensions"; "ALL";
        "-i"; "a.mpd";
        "-c"; "copy";
        "-y";
        cwd ++ String backslash "video.mp4"]
       ("C:" ++ String backslash "m")).
Proof.
  apply (no_remote_urls_invokes_media_tool
           (with_manifest (ReadOk manifest_relative)) ffmpeg_exe a_uri
           "video.mp4" (opts_for "video.mp4") eq_refl manifest_relative).
  - repeat split. vm_compute. discriminate.
  - reflexivity.
  - reflexivity.
Defined.

Lemma ffmpeg_required_for_local_only_witness :
  (forall opts url output_name,
     process_local (without_ffmpeg (ReadOk manifest_relative))
       (get_ffmpeg_path (without_ffmpeg (ReadOk manifest_relative)))
       opts url output_name
     = ([], FfmpegRequiredError))
  /\ (forall user_input answer url opts,
        validate_and_prepare_url (without_ffmpeg (ReadOk manifest_relative))
          user_input = Returns url ->
        is_local_file url = true ->
        build_ydl_opts (without_ffmpeg (ReadOk manifest_relative))
          (get_ffmpeg_path (without_ffmpeg (ReadOk manifest_relative))) url
          (normalize_output_name answer) = Some opts ->
        main (without_ffmpeg (ReadOk manifest_relative)) user_input answer
        = ([], FfmpegRequiredError))
  /\ (forall user_input answer url,
        validate_and_prepare_url (without_ffmpeg (ReadOk manifest_relative))
          user_input = Returns url ->
        is_local_file url = false ->
        exists opts,
          main (without_ffmpeg (ReadOk manifest_relative)) user_input answer
          = ([], DelegateToDownloader url opts)
          /\ ffmpeg_location opts = None).
Proof.
  apply (ffmpeg_required_for_local_only (without_ffmpeg (ReadOk manifest_relative))).
  reflexivity.
Defined.

Lemma normalize_output_name_cases_witness :
  normalize_output_name "   " = "output.mp4"
  /\ normalize_output_name "video" = "video" ++ ".mp4"
  /\ normalize_output_name "clip.MP4" = "clip.MP4".
Proof.
  split; [|split].
  - apply (proj1 (normalize_output_name_cases "   ")). reflexivity.
  - apply (proj1 (proj2 (normalize_output_name_cases "video"))).
    + discriminate.
    + reflexivity.
  - apply (proj2 (proj2 (normalize_output_name_cases "clip.MP4"))). reflexivity.
Defined.

(** C7 fails as stated: a reply that ends in .MP4 but starts with a space
    is not returned unchanged, and a reply that ends in a space after .mp4
    gets nothing appended. *)
Lemma padded_mp4_name_is_trimmed :
  endswith (lower " clip.MP4") ".mp4" = true
  /\ normalize_output_name " clip.MP4" = "clip.MP4"
  /\ normalize_output_name " clip.MP4" <> " clip.MP4"
  /\ endswith (lower "clip.mp4 ") ".mp4" = false
  /\ normalize_output_name "clip.mp4 " = "clip.mp4".
Proof. repeat split. vm_compute. discriminate. Qed.

Lemma empty_after_cleaning_is_invalid_witness :
  exists msg,
    validate_and_prepare_url (with_manifest (ReadOk manifest_relative))
      (" " ++ String dquote (String dquote " ")) = RaisesValueError msg
    /\ forall answer,
         main (with_manifest (ReadOk manifest_relative))
           (" " ++ String dquote (String dquote " ")) answer
         = ([], InvalidInputError msg).
Proof.
  apply (empty_after_cleaning_is_invalid
           (with_manifest (ReadOk manifest_relative))
           (" " ++ String dquote (String dquote " "))).
  reflexivity.
Defined.

(** C8 fails as stated: an input made of quote characters only, which
    trimming whitespace and quotes from both ends empties, is accepted and
    returned as a URL. *)
Lemma quote_only_input_is_accepted :
  spec_trim quoted_quote = ""
  /\ validate_and_prepare_url (with_manifest (ReadOk manifest_relative)) quoted_quote
     = Returns (String dquote "")
  /\ exists opts,
       main (with_manifest (ReadOk manifest_relative)) quoted_quote "video.mp4"
       = ([], DelegateToDownloader (String dquote "") opts).
Proof. repeat split. eexists. reflexivity. Qed.

Lemma first_media_match_decides_witness :
  (re_search media_re manifest_w3_first = Some ("http://" ++ "www.w3.org/a")
   /\ scan_patterns media_patterns manifest_w3_first =
      scan_patterns [initialization_re; sourceURL_re; SegmentURL_re]
        manifest_w3_first
   /\ (forall pattern rest g,
         re_search pattern manifest_w3_first = Some g ->
         contains "w3.org" (strip g) = true ->
         scan_patterns (pattern :: rest) manifest_w3_first =
         scan_patterns rest manifest_w3_first))
  /\ extract_remote_url manifest_w3_first = None.
Proof.
  split.
  - apply (first_media_match_decides manifest_w3_first "<MPD><S " "http://"
             "www.w3.org/a" after_first_media).
    + reflexivity.
    + left. reflexivity.
    + discriminate.
    + reflexivity.
    + reflexivity.
    + reflexivity.
  - reflexivity.
Defined.

End Examples.

(** ** More facts about stripping, suffixes and replacement *)

Section StripFacts.

Variable p : ascii -> bool.

Lemma rstrip_by_keep (c : ascii) (t : string) :
  p c = false -> rstrip_by p (String c t) = String c (rstrip_by p t).
Proof.
  intros Hc. cbn [rstrip_by]. destruct (rstrip_by p t); [now rewrite Hc | reflexivity].
Qed.

Lemma lstrip_by_head (s : string) (c : ascii) (t : string) :
  lstrip_by p s = String c t -> p c = false.
Proof.
  induction s as [|d s IH]; cbn [lstrip_by]; [discriminate|].
  destruct (p d) eqn:Hd; [exact IH|]. intros H. now inversion H; subst.
Qed.

Lemma lstrip_by_fixed (c : ascii) (t : string) :
  p c = false -> lstrip_by p (String c t) = String c t.
Proof. intros Hc. cbn [lstrip_by]. now rewrite Hc. Qed.

Lemma rstrip_by_cons (c d : ascii) (x r : string) :
  rstrip_by p x = String d r ->
  rstrip_by p (String c x) = String c (String d r).
Proof. intros H. cbn [rstrip_by]. now rewrite H. Qed.

Lemma rstrip_by_idempotent (s : string) :
  rstrip_by p (rstrip_by p s) = rstrip_by p s.
Proof.
  induction s as [|c s IH]; [reflexivity|].
  cbn [rstrip_by]. destruct (rstrip_by p s) as [|d r] eqn:E.
  - destruct (p c) eqn:Hc; [reflexivity|]. cbn [rstrip_by]. now rewrite Hc.
  - now apply rstrip_by_cons.
Qed.

(** What [strip_by] returns is empty or begins with a character that
    stays. *)
Lemma strip_by_head (s : string) (c : ascii) (t : string) :
  strip_by p s = String c t -> p c = false.
Proof.
  unfold strip_by. destruct (lstrip_by p s) as [|d u] eqn:E; [discriminate|].
  pose proof (lstrip_by_head s d u E) as Hd.
  rewrite (rstrip_by_keep d u Hd). intros H. now inversion H; subst.
Qed.

Lemma strip_by_fixed (s : string) : strip_by p (strip_by p s) = strip_by p s.
Proof.
  destruct (strip_by p s) as [|c t] eqn:E; [reflexivity|].
  pose proof (strip_by_head s c t E) as Hc.
  unfold strip_by at 1. rewrite (lstrip_by_fixed c t Hc).
  rewrite <- E. unfold strip_by. apply rstrip_by_idempotent.
Qed.

(** [rstrip_by] never leaves a character that goes at the end. *)
Lemma rstrip_by_last (s : string) (c : ascii) :
  p c = true -> endswith (rstrip_by p s) (String c "") = false.
Proof.
  intros Hc. induction s as [|d s IH]; [reflexivity|].
  cbn [rstrip_by]. destruct (rstrip_by p s) as [|e r] eqn:E.
  - destruct (p d) eqn:Hd; [reflexivity|].
    cbn. destruct (Ascii.eqb d c) eqn:Hdc; [|reflexivity].
    apply Ascii.eqb_eq in Hdc. congruence.
  - change (endswith (String d (String e r)) (String c ""))
      with (String.eqb (String d (String e r)) (String c "")
            || endswith (String e r) (String c "")).
    rewrite IH. cbn. destruct (Ascii.eqb d c); reflexivity.
Qed.

(** A text that [rstrip_by] keeps is kept behind any prefix. *)
Lemma rstrip_by_append (a b : string) :
  b <> "" -> rstrip_by p b = b -> rstrip_by p (a ++ b) = a ++ b.
Proof.
  intros Hb Hfix. induction a as [|c a IH]; [exact Hfix|].
  cbn [append rstrip_by]. rewrite IH.
  destruct (a ++ b) eqn:E; [|reflexivity].
  destruct a; cbn in E; [congruence | discriminate].
Qed.

End StripFacts.

Section SuffixFacts.

Lemma eqb_refl_string (s : string) : String.eqb s s = true.
Proof. apply String.eqb_refl. Qed.

Lemma endswith_append (a b : string) : endswith (a ++ b) b = true.
Proof.
  induction a as [|c a IH].
  - destruct b; cbn [append endswith]; now rewrite String.eqb_refl.
  - cbn [append endswith]. rewrite IH. apply orb_true_r.
Qed.

Lemma prefix_refl (s : string) : String.prefix s s = true.
Proof. rewrite <- (append_nil_r s) at 2. apply prefix_append. Qed.

Lemma prefix_trans (a b c : string) :
  String.prefix a b = true -> String.prefix b c = true -> String.prefix a c = true.
Proof.
  revert b c. induction a as [|x a IH]; intros b c Hab Hbc.
  - now destruct c.
  - destruct b as [|y b]; [discriminate|]. destruct c as [|z c]; [discriminate|].
    rewrite prefix_cons in *. apply andb_true_iff in Hab as [Hxy Hab].
    apply andb_true_iff in Hbc as [Hyz Hbc].
    apply Ascii.eqb_eq in Hxy, Hyz. subst. rewrite Ascii.eqb_refl. cbn.
    now apply (IH b c).
Qed.

Lemma prefix_lower (a b : string) :
  String.prefix a b = true -> String.prefix (lower a) (lower b) = true.
Proof.
  revert b. induction a as [|x a IH]; intros b H.
  - now destruct b.
  - destruct b as [|y b]; [discriminate|]. cbn [lower]. rewrite prefix_cons in *.
    apply andb_true_iff in H as [Hxy H]. apply Ascii.eqb_eq in Hxy. subst.
    rewrite Ascii.eqb_refl. cbn. now apply IH.
Qed.

Lemma prefix_split (a b : string) :
  String.prefix a b = true -> exists t, b = a ++ t.
Proof.
  revert b. induction a as [|x a IH]; intros b H; [now exists b|].
  destruct b as [|y b]; [discriminate|]. rewrite prefix_cons in H.
  apply andb_true_iff in H as [Hxy H]. apply Ascii.eqb_eq in Hxy. subst.
  destruct (IH b H) as [t ->]. now exists t.
Qed.

Lemma prefix_of_longer (a b s : string) :
  String.prefix (a ++ b) s = true -> String.prefix a s = true.
Proof.
  intros H. apply (prefix_trans a (a ++ b) s); [apply prefix_append | exact H].
Qed.

Lemma contains_of_longer (a b s : string) :
  contains a s = false -> contains (a ++ b) s = false.
Proof.
  induction s as [|c s IH]; cbn [contains]; intros H.
  - apply orb_false_elim in H as [H _]. rewrite orb_false_r in *.
    destruct (String.prefix (a ++ b) "") eqn:E; [|reflexivity].
    apply prefix_of_longer in E. congruence.
  - apply orb_false_elim in H as [H Hs]. rewrite (IH Hs), orb_false_r.
    destruct (String.prefix (a ++ b) (String c s)) eqn:E; [|reflexivity].
    apply prefix_of_longer in E. congruence.
Qed.

End SuffixFacts.

Section ReplaceFacts.

Lemma replace_from_absent (old new s : string) :
  contains old s = false -> replace_from old new 0 s = s.
Proof.
  induction s as [|c s IH]; [reflexivity|].
  intros H. apply contains_cons_false in H as [Hhere Hs].
  cbn [replace_from]. now rewrite Hhere, IH.
Qed.

Lemma replace_from_skip (old new a s : string) :
  replace_from old new (String.length a) (a ++ s) = replace_from old new 0 s.
Proof. induction a as [|c a IH]; [reflexivity | exact IH]. Qed.

(** An occurrence at the start is replaced and the replacement goes on
    behind it. *)
Lemma replace_here (c : ascii) (old' new s : string) :
  replace (String c old') new (String c old' ++ s)
  = new ++ replace (String c old') new s.
Proof.
  unfold replace. cbn [append replace_from].
  change (String c (old' ++ s)) with (String c old' ++ s).
  rewrite prefix_append.
  change (String.length (String c old') - 1) with (String.length old' - 0).
  rewrite Nat.sub_0_r. now rewrite replace_from_skip.
Qed.

End ReplaceFacts.

(** ** Further properties of the prompts *)

Section OutputName.

Lemma normalize_output_name_suffix (answer : string) :
  endswith (lower (normalize_output_name answer)) ".mp4" = true.
Proof.
  unfold normalize_output_name.
  destruct (strip answer) as [|c t]; [reflexivity|]. cbn [truthy negb].
  destruct (endswith (lower (String c t)) ".mp4") eqn:E; cbn [negb].
  - exact E.
  - rewrite lower_append. apply endswith_append.
Qed.

Lemma normalize_output_name_trimmed (answer : string) :
  strip (normalize_output_name answer) = normalize_output_name answer.
Proof.
  unfold normalize_output_name.
  destruct (strip answer) as [|c t] eqn:E; [reflexivity|]. cbn [truthy negb].
  destruct (endswith (lower (String c t)) ".mp4"); cbn [negb].
  - rewrite <- E. apply strip_by_fixed.
  - pose proof (strip_by_head isspace answer c t E) as Hc.
    unfold strip, strip_by. cbn [append]. rewrite (lstrip_by_fixed isspace c _ Hc).
    change (String c (t ++ ".mp4")) with (String c t ++ ".mp4").
    apply rstrip_by_append; [discriminate | reflexivity].
Qed.

(** X1: whatever is typed at the second prompt, the output name is not
    empty, ends in .mp4 when letter case is ignored, and carries no
    whitespace at either end. *)
Theorem output_name_is_trimmed_mp4 (answer : string) :
  normalize_output_name answer <> ""
  /\ endswith (lower (normalize_output_name answer)) ".mp4" = true
  /\ strip (normalize_output_name answer) = normalize_output_name answer.
Proof.
  split; [|split].
  - intros H. pose proof (normalize_output_name_suffix answer) as Hs.
    rewrite H in Hs. discriminate.
  - apply normalize_output_name_suffix.
  - apply normalize_output_name_trimmed.
Qed.

(** X2: normalizing an output name that was already normalized changes
    nothing. *)
Theorem normalize_output_name_idempotent (answer : string) :
  normalize_output_name (normalize_output_name answer)
  = normalize_output_name answer.
Proof.
  pose proof (normalize_output_name_suffix answer) as Hs.
  pose proof (normalize_output_name_trimmed answer) as Ht.
  remember (normalize_output_name answer) as name eqn:E. clear E.
  unfold normalize_output_name. rewrite Ht.
  destruct name as [|c t]; [discriminate|]. cbn [truthy negb].
  now rewrite Hs.
Qed.

End OutputName.

Section CleanedInput.

Lemma single_quote_only (c : ascii) :
  mem_char c (String squote "") = Ascii.eqb c squote.
Proof. cbn [mem_char]. apply orb_false_r. Qed.

(** X3: the cleaned input never begins and never ends with a single
    quote. *)
Theorem clean_input_has_no_outer_single_quote (user_input : string) :
  startswith (clean_input user_input) (String squote "") = false
  /\ endswith (clean_input user_input) (String squote "") = false.
Proof.
  unfold clean_input, strip_chars. split.
  - destruct (strip_by _ _) as [|c t] eqn:E; [reflexivity|].
    apply strip_by_head in E. rewrite single_quote_only in E.
    unfold startswith. rewrite prefix_cons, Ascii.eqb_sym, E. reflexivity.
  - unfold strip_by at 1. apply rstrip_by_last. reflexivity.
Qed.

(** X4: with [abspath] and [as_uri] behaving as documented,
    [validate_and_prepare_url] raises exactly when the cleaned input is
    empty, and a URL that it returns is never empty. *)
Theorem validate_raises_iff_cleaned_empty (w : World) (user_input : string) :
  PathLaws w ->
  ((exists msg, validate_and_prepare_url w user_input = RaisesValueError msg)
   <-> clean_input user_input = "")
  /\ validate_and_prepare_url w user_input <> RaisesOther
  /\ (forall url, validate_and_prepare_url w user_input = Returns url -> url <> "").
Proof.
  intros laws. unfold validate_and_prepare_url.
  destruct user_input as [|c s] eqn:Einput; cbn [truthy negb].
  - repeat split; try discriminate; eauto.
  - rewrite <- Einput. clear Einput.
    destruct (clean_input user_input) as [|d t] eqn:Eclean; cbn [truthy negb].
    + repeat split; try discriminate; eauto.
    + destruct (isfile w (String d t)).
      * destruct (as_uri_absolute w laws _ (abspath_absolute w laws (String d t)))
          as [rest ->].
        repeat split; try discriminate.
        -- intros [msg H]. discriminate.
        -- intros url H. inversion H. discriminate.
      * repeat split; try discriminate.
        -- intros [msg H]. discriminate.
        -- intros url H. inversion H. discriminate.
Qed.

End CleanedInput.

Section UriToPath.

Lemma replace_file_prefixes (path : string) :
  contains "file://" path = false ->
  replace "file://" "" (replace "file:///" "" ("file:///" ++ path)) = path.
Proof.
  intros H. rewrite (replace_here "f" "ile:///" "" path). cbn [append].
  unfold replace at 2.
  rewrite (replace_from_absent "file:///" "" path).
  - unfold replace. now apply replace_from_absent.
  - apply (contains_of_longer "file://" "/" path H).
Qed.

(** X5: taking the path back out of [file:///] followed by [path] gives
    [path] itself, without the slash that closes the prefix, whenever
    [path] holds no [file://]; on Windows no leading slash is left for
    lines 159-160 to remove. *)
Theorem uri_to_path_drops_prefix (w : World) (path : string) :
  contains "file://" path = false ->
  uri_to_path ("file:///" ++ path) = path
  /\ (startswith path "/" = false ->
      local_path_of w ("file:///" ++ path) = path).
Proof.
  intros H. unfold local_path_of, uri_to_path.
  rewrite (replace_file_prefixes path H). split; [reflexivity|].
  intros Hslash. rewrite Hslash. now rewrite andb_false_r.
Qed.

(** When the URI of the manifest is [file:///] followed by a path whose
    directory [as_uri] rejects, line 135 ends the run. *)
Lemma process_relative_directory
    (w : World) (ffmpeg_path : option string) (path output_name : string) :
  contains "file://" path = false ->
  as_uri w (dirname w path) = None ->
  process w ffmpeg_path ("file:///" ++ path) output_name = ([], UncaughtException).
Proof.
  intros Hpath Huri. unfold process, build_ydl_opts.
  change (startswith ("file:///" ++ path) "file://") with true. cbn iota.
  unfold uri_to_path. rewrite (replace_file_prefixes path Hpath).
  now rewrite Huri.
Qed.

(** X6: a run whose manifest URI is [file:///] followed by a path with a
    directory that [as_uri] rejects ends with the uncaught [ValueError] of
    line 135, before the FFmpeg check and before anything is listed,
    checked or read. *)
Theorem relative_directory_ends_the_run
    (w : World) (user_input answer path : string) :
  validate_and_prepare_url w user_input = Returns ("file:///" ++ path) ->
  contains "file://" path = false ->
  as_uri w (dirname w path) = None ->
  main w user_input answer = ([], UncaughtException).
Proof.
  intros Hret Hpath Huri. unfold main. rewrite Hret.
  now apply process_relative_directory.
Qed.

End UriToPath.

Section Discovery.

(** X7: [get_ffmpeg_path] returns the bundled executable whenever
    imageio-ffmpeg gives one, whatever is on the PATH, and returns [None]
    exactly when imageio-ffmpeg gives none and [shutil.which] fails or
    finds nothing. *)
Theorem get_ffmpeg_path_order (w : World) :
  (forall path, imageio_ffmpeg w = BundledExe path ->
                get_ffmpeg_path w = Some path)
  /\ (get_ffmpeg_path w = None <->
      (forall path, imageio_ffmpeg w <> BundledExe path)
      /\ (forall path, shutil_which_ffmpeg w = Which (Some path) -> path = "")).
Proof.
  unfold get_ffmpeg_path. split.
  - intros path ->. reflexivity.
  - destruct (imageio_ffmpeg w) as [| |exe].
    3: { split; [discriminate|]. intros [H _]. now elim (H exe). }
    all: destruct (shutil_which_ffmpeg w) as [|[[|c t]|]]; cbn [truthy].
    all: split;
      [ intros H;
        first [ discriminate H
              | split;
                [ intros path; discriminate
                | intros path Hp; inversion Hp; reflexivity ] ]
      | intros [_ H];
        first [ reflexivity | specialize (H _ eq_refl); discriminate H ] ].
Qed.

End Discovery.

Section ProgressHook.

(** X8: the progress hook raises [KeyError] exactly when the dict has no
    status; for a status other than downloading and finished it writes
    nothing; and for downloading it writes a line that starts with a
    carriage return, whether or not the percent, speed and ETA keys are
    there. *)
Theorem progress_hook_cases (d : pydict) :
  (progress_hook d = KeyError <-> dict_get d "status" = None)
  /\ (forall status,
        dict_get d "status" = Some status ->
        status <> "downloading" -> status <> "finished" ->
        progress_hook d = Silent)
  /\ (dict_get d "status" = Some "downloading" ->
      exists rest,
        progress_hook d =
          Stdout (String carriage_return ("[Downloading] Progress: " ++ rest))).
Proof.
  unfold progress_hook. split; [|split].
  - destruct (dict_get d "status") as [status|]; [|tauto].
    split; [|discriminate].
    destruct (String.eqb status "downloading"); [discriminate|].
    destruct (String.eqb status "finished"); discriminate.
  - intros status -> Hd Hf.
    apply String.eqb_neq in Hd, Hf. now rewrite Hd, Hf.
  - intros ->. cbn. eexists. reflexivity.
Qed.

End ProgressHook.

(** ** What the patterns capture *)

Section CaptureFacts.

Lemma match_lits_split (p : string) (r : regex) (st : capture) (s g : string) :
  match_here (lits p ++ r)%list st s = Some g ->
  exists p' s',
    s = p' ++ s' /\ lower p' = lower p
    /\ match_here r (push_all st p') s' = Some g.
Proof.
  revert st s. induction p as [|c p IH]; intros st s H.
  - exists "", s. auto.
  - cbn [lits List.app match_here] in H. destruct s as [|d s]; [discriminate|].
    destruct (ci_eq d c) eqn:E; [|discriminate].
    destruct (IH _ _ H) as (p' & s' & -> & Hp & Hm).
    exists (String d p'), s'. repeat split; [|exact Hm].
    cbn [lower]. apply Ascii.eqb_eq in E. now rewrite E, Hp.
Qed.

Lemma star_not_split (x : ascii) (k : capture -> string -> option string)
    (st : capture) (s g : string) :
  star_not x k st s = Some g ->
  exists a s', s = a ++ s' /\ k (push_all st a) s' = Some g.
Proof.
  revert st. induction s as [|c s IH]; intros st H.
  - exists "", "". auto.
  - cbn [star_not] in H. destruct (ci_eq c x).
    + exists "", (String c s). auto.
    + destruct (star_not x k (push st c) s) as [g'|] eqn:E.
      * cbn [or_else] in H. rewrite H in E.
        destruct (IH _ E) as (a & s' & -> & Hk).
        exists (String c a), s'. auto.
      * exists "", (String c s). auto.
Qed.

Lemma group1_push (st : capture) (c : ascii) :
  String.prefix (group1 st) (group1 (push st c)) = true.
Proof.
  unfold push. destruct (capturing st); cbn [group1];
    [apply prefix_append | apply prefix_refl].
Qed.

Lemma group1_push_all (st : capture) (a : string) :
  String.prefix (group1 st) (group1 (push_all st a)) = true.
Proof.
  revert st. induction a as [|c a IH]; intros st; [apply prefix_refl|].
  cbn [push_all]. apply (prefix_trans _ _ _ (group1_push st c)), IH.
Qed.

(** Once the group is open and no other group opens, the captured text
    only grows. *)
Lemma captured_prefix (r : regex) :
  no_group_open r = true ->
  forall st s g, match_here r st s = Some g ->
                 String.prefix (group1 st) g = true.
Proof.
  induction r as [|a r IH]; intros Hr st s g H.
  - inversion H. apply prefix_refl.
  - destruct a; cbn [no_group_open] in Hr; cbn [match_here] in H.
    + destruct s as [|d s]; [discriminate|].
      destruct (ci_eq d c); [|discriminate].
      apply (prefix_trans _ _ _ (group1_push st d)), (IH Hr _ _ _ H).
    + destruct s as [|d s]; [exact (IH Hr _ _ _ H)|].
      destruct (ci_eq d c); [|exact (IH Hr _ _ _ H)].
      destruct (match_here r (push st d) s) as [g'|] eqn:E.
      * cbn [or_else] in H. rewrite H in E.
        apply (prefix_trans _ _ _ (group1_push st d)), (IH Hr _ _ _ E).
      * exact (IH Hr _ _ _ H).
    + apply star_not_split in H as (a & s' & _ & Hk).
      apply (prefix_trans _ _ _ (group1_push_all st a)), (IH Hr _ _ _ Hk).
    + destruct s as [|d s]; [discriminate|].
      destruct (ci_eq d c); [discriminate|].
      apply star_not_split in H as (a & s' & _ & Hk).
      apply (prefix_trans _ _ _ (group1_push st d)).
      apply (prefix_trans _ _ _ (group1_push_all _ a)), (IH Hr _ _ _ Hk).
    + discriminate.
    + exact (IH Hr _ _ _ H).
Qed.

(** A match of [pre ( post] holds a match of [post] that starts with an
    empty capture. *)
Lemma reach_group (pre post : regex) (st : capture) (s g : string) :
  match_here (pre ++ GroupOpen :: post)%list st s = Some g ->
  exists s', match_here post (open_group no_capture) s' = Some g.
Proof.
  revert st s. induction pre as [|a pre IH]; intros st s H.
  - exists s. exact H.
  - destruct a; cbn [List.app match_here] in H.
    + destruct s as [|d s]; [discriminate|].
      destruct (ci_eq d c); [|discriminate]. exact (IH _ _ H).
    + destruct s as [|d s]; [exact (IH _ _ H)|].
      destruct (ci_eq d c); [|exact (IH _ _ H)].
      destruct (match_here (pre ++ GroupOpen :: post)%list (push st d) s)
        as [g'|] eqn:E.
      * cbn [or_else] in H. rewrite H in E. exact (IH _ _ E).
      * exact (IH _ _ H).
    + apply star_not_split in H as (a & s' & _ & Hk). exact (IH _ _ Hk).
    + destruct s as [|d s]; [discriminate|].
      destruct (ci_eq d c); [discriminate|].
      apply star_not_split in H as (a & s' & _ & Hk). exact (IH _ _ Hk).
    + exact (IH _ _ H).
    + exact (IH _ _ H).
Qed.

(** What [(https?://...] captures begins with one of the two schemes. *)
Lemma scheme_captured (r : regex) (s g : string) :
  no_group_open r = true ->
  match_here (scheme_re ++ r)%list (open_group no_capture) s = Some g ->
  exists x, String.prefix x g = true
            /\ (lower x = "http://" \/ lower x = "https://").
Proof.
  intros Hr H.
  change (scheme_re ++ r)%list
    with (lits "http" ++ OptLit "s" :: (lits "://" ++ r))%list in H.
  apply match_lits_split in H as (p1 & s1 & _ & Hp1 & H).
  unfold open_group in H. rewrite push_all_capturing in H. cbn [append] in H.
  assert (Hend : forall st s2,
             match_here (lits "://" ++ r)%list st s2 = Some g ->
             capturing st = true ->
             exists p2, lower p2 = "://"
                        /\ String.prefix (group1 st ++ p2) g = true).
  { intros st s2 Hm Hcap. apply match_lits_split in Hm as (p2 & s' & _ & Hp2 & Hm).
    exists p2. split; [exact Hp2|].
    apply (captured_prefix r Hr) in Hm.
    destruct st as [cap grp]. cbn in Hcap. subst cap.
    now rewrite push_all_capturing in Hm. }
  cbn [match_here] in H.
  assert (Hskip : match_here (lits "://" ++ r)%list
                    {| capturing := true; group1 := p1 |} s1 = Some g ->
                  exists x, String.prefix x g = true
                            /\ (lower x = "http://" \/ lower x = "https://")).
  { intros Hm. destruct (Hend _ _ Hm eq_refl) as (p2 & Hp2 & Hpre).
    exists (p1 ++ p2). split; [exact Hpre|]. left.
    now rewrite lower_append, Hp1, Hp2. }
  destruct s1 as [|d s1]; [exact (Hskip H)|].
  destruct (ci_eq d "s") eqn:Ed; [|exact (Hskip H)].
  destruct (match_here (lits "://" ++ r)%list
              (push {| capturing := true; group1 := p1 |} d) s1)
    as [g'|] eqn:E; [|exact (Hskip H)].
  cbn [or_else] in H. rewrite H in E.
  destruct (Hend _ _ E eq_refl) as (p2 & Hp2 & Hpre).
  exists ((p1 ++ String d "") ++ p2). split; [exact Hpre|]. right.
  rewrite !lower_append, Hp1, Hp2. cbn [lower].
  apply Ascii.eqb_eq in Ed. now rewrite Ed.
Qed.

Lemma re_search_sound (r : regex) (s g : string) :
  re_search r s = Some g -> exists t, match_here r no_capture t = Some g.
Proof.
  induction s as [|c s IH]; cbn [re_search].
  - destruct (match_here r no_capture "") as [g'|] eqn:E; [|discriminate].
    intros H. exists "". congruence.
  - destruct (match_here r no_capture (String c s)) as [g'|] eqn:E.
    + intros H. exists (String c s). congruence.
    + exact IH.
Qed.

Lemma isspace_lower (c : ascii) : isspace (lower_char c) = isspace c.
Proof. destruct c as [[|] [|] [|] [|] [|] [|] [|] [|]]; reflexivity. Qed.

Lemma all_chars_lower_nonspace (x : string) :
  all_chars (fun c => negb (isspace c)) (lower x) = true ->
  all_chars (fun c => negb (isspace c)) x = true.
Proof.
  induction x as [|c x IH]; [reflexivity|]. cbn [lower all_chars].
  rewrite isspace_lower. intros H. apply andb_true_iff in H as [Hc Hx].
  now rewrite Hc, IH.
Qed.

Lemma rstrip_by_keep_all (p : ascii -> bool) (x t : string) :
  all_chars (fun c => negb (p c)) x = true ->
  rstrip_by p (x ++ t) = x ++ rstrip_by p t.
Proof.
  induction x as [|c x IH]; [reflexivity|]. cbn [all_chars append].
  intros H. apply andb_true_iff in H as [Hc Hx].
  apply negb_true_iff in Hc. now rewrite (rstrip_by_keep p c _ Hc), IH.
Qed.

(** Stripping a text that begins with a scheme leaves the scheme in
    place. *)
Lemma strip_keeps_scheme (x g : string) :
  String.prefix x g = true ->
  lower x = "http://" \/ lower x = "https://" ->
  has_http_scheme (strip g) = true.
Proof.
  intros Hpre Hx. apply prefix_split in Hpre as [t ->].
  assert (Hns : all_chars (fun c => negb (isspace c)) x = true).
  { apply all_chars_lower_nonspace. now destruct Hx as [-> | ->]. }
  assert (Hstrip : strip (x ++ t) = x ++ rstrip_by isspace t).
  { unfold strip, strip_by. destruct x as [|c x].
    - destruct Hx; discriminate.
    - cbn [all_chars] in Hns. apply andb_true_iff in Hns as [Hc Hns'].
      apply negb_true_iff in Hc. cbn [append].
      rewrite (lstrip_by_fixed isspace c _ Hc).
      change (String c (x ++ t)) with (String c x ++ t).
      apply rstrip_by_keep_all. cbn [all_chars]. now rewrite Hc, Hns'. }
  rewrite Hstrip. unfold has_http_scheme, startswith. rewrite lower_append.
  destruct Hx as [-> | ->]; rewrite prefix_append; [reflexivity|].
  apply orb_true_r.
Qed.

(** Each of the five patterns is some prefix, the group, the scheme and a
    rest without a second group. *)
Lemma pattern_shape (pattern : regex) :
  pattern = BaseURL_re \/ In pattern media_patterns ->
  exists pre rest,
    pattern = (pre ++ GroupOpen :: (scheme_re ++ rest))%list
    /\ no_group_open rest = true.
Proof.
  intros [-> | [<- | [<- | [<- | [<- | []]]]]].
  - exists (lits "<BaseURL" ++ [StarNot ">"%char] ++ lits ">")%list,
           ([PlusNot "<"%char; GroupClose] ++ lits "</BaseURL>")%list.
    split; reflexivity.
  - exists (lits "media=" ++ [Lit dquote])%list,
           [PlusNot dquote; GroupClose; Lit dquote].
    split; reflexivity.
  - exists (lits "initialization=" ++ [Lit dquote])%list,
           [PlusNot dquote; GroupClose; Lit dquote].
    split; reflexivity.
  - exists (lits "sourceURL=" ++ [Lit dquote])%list,
           [PlusNot dquote; GroupClose; Lit dquote].
    split; reflexivity.
  - exists (lits "<SegmentURL" ++ [StarNot ">"%char] ++ lits ">")%list,
           ([PlusNot "<"%char; GroupClose] ++ lits "</SegmentURL>")%list.
    split; reflexivity.
Qed.

(** The stripped capture of any of the five patterns begins with a
    scheme. *)
Lemma candidate_has_scheme (pattern : regex) (mpd_content g : string) :
  pattern = BaseURL_re \/ In pattern media_patterns ->
  re_search pattern mpd_content = Some g ->
  has_http_scheme (strip g) = true.
Proof.
  intros Hp Hg. destruct (pattern_shape pattern Hp) as (pre & rest & -> & Hrest).
  apply re_search_sound in Hg as [t Ht].
  apply reach_group in Ht as [s' Hs'].
  destruct (scheme_captured rest s' g Hrest Hs') as (x & Hpre & Hx).
  exact (strip_keeps_scheme x g Hpre Hx).
Qed.

(** What the loop of lines 226-234 returns is the stripped first match of
    one of its patterns, and holds no [w3.org]. *)
Lemma scan_patterns_found (patterns : list regex) (mpd_content url : string) :
  scan_patterns patterns mpd_content = Some url ->
  exists pattern g,
    In pattern patterns /\ re_search pattern mpd_content = Some g
    /\ url = strip g /\ contains "w3.org" url = false.
Proof.
  induction patterns as [|p rest IH]; [discriminate|].
  cbn [scan_patterns].
  destruct (re_search p mpd_content) as [g|] eqn:Eg.
  - destruct (contains "w3.org" (strip g)) eqn:Ew; cbn [negb].
    + intros H. destruct (IH H) as (q & g' & Hin & Hq). exists q, g'.
      split; [now right | exact Hq].
    + intros H. inversion H. exists p, g. repeat split; auto. now left.
  - intros H. destruct (IH H) as (q & g' & Hin & Hq). exists q, g'.
    split; [now right | exact Hq].
Qed.

Lemma scan_patterns_none (patterns : list regex) (mpd_content : string) :
  scan_patterns patterns mpd_content = None ->
  forallb (fun pattern => discarded pattern mpd_content) patterns = true.
Proof.
  induction patterns as [|p rest IH]; [reflexivity|].
  cbn [scan_patterns forallb]. unfold discarded at 1.
  destruct (re_search p mpd_content) as [g|].
  - destruct (contains "w3.org" (strip g)); cbn [negb]; [|discriminate].
    intros H. now rewrite IH.
  - intros H. now rewrite IH.
Qed.

Lemma has_http_scheme_nonempty (u : string) :
  has_http_scheme u = true -> truthy u = true.
Proof. destruct u; [discriminate | reflexivity]. Qed.

(** What [extract_remote_url] returns comes from the BaseURL pattern or
    from the loop. *)
Lemma extract_remote_url_found (mpd_content url : string) :
  extract_remote_url mpd_content = Some url ->
  (exists g, re_search BaseURL_re mpd_content = Some g /\ url = strip g)
  \/ (re_search BaseURL_re mpd_content = None
      /\ scan_patterns media_patterns mpd_content = Some url).
Proof.
  unfold extract_remote_url.
  destruct (re_search BaseURL_re mpd_content) as [g|].
  - intros H. inversion H. left. now exists g.
  - destruct (scan_patterns media_patterns mpd_content) as [u|]; [|discriminate].
    destruct (truthy u); [|discriminate]. intros H. inversion H. now right.
Qed.

(** X9: for a manifest text of characters below U+0100, which is what the
    strings here hold, whatever URL the inspection extracts begins with
    http:// or https://, letter case apart; in particular it is never
    empty. *)
Theorem extracted_url_has_http_scheme (mpd_content url : string) :
  extract_remote_url mpd_content = Some url ->
  has_http_scheme url = true /\ url <> "".
Proof.
  intros H.
  assert (Hs : has_http_scheme url = true).
  { apply extract_remote_url_found in H as [(g & Hg & ->) | (_ & Hscan)].
    - apply (candidate_has_scheme BaseURL_re mpd_content g); [now left | exact Hg].
    - apply scan_patterns_found in Hscan as (p & g & Hin & Hg & -> & _).
      apply (candidate_has_scheme p mpd_content g); [now right | exact Hg]. }
  split; [exact Hs|]. apply truthy_nonempty, has_http_scheme_nonempty, Hs.
Qed.

(** X10: a URL extracted while the BaseURL pattern has no match never
    holds w3.org. *)
Theorem pattern_url_is_not_on_w3 (mpd_content url : string) :
  re_search BaseURL_re mpd_content = None ->
  extract_remote_url mpd_content = Some url ->
  contains "w3.org" url = false.
Proof.
  intros Hbase H.
  apply extract_remote_url_found in H as [(g & Hg & _) | (_ & Hscan)].
  - congruence.
  - now apply scan_patterns_found in Hscan as (p & g & _ & _ & _ & Hw).
Qed.

(** X11: the inspection gives up exactly when the BaseURL pattern has no
    match and each of the four other patterns has no match or a first
    match that holds w3.org; the emptiness test of line 236 adds
    nothing. *)
Theorem extraction_fails_iff (mpd_content : string) :
  extract_remote_url mpd_content = None <->
  re_search BaseURL_re mpd_content = None
  /\ forallb (fun pattern => discarded pattern mpd_content) media_patterns = true.
Proof.
  split.
  - intros H. unfold extract_remote_url in H.
    destruct (re_search BaseURL_re mpd_content) as [g|]; [discriminate|].
    split; [reflexivity|].
    destruct (scan_patterns media_patterns mpd_content) as [u|] eqn:E.
    + exfalso. pose proof E as Hf.
      apply scan_patterns_found in Hf as (p & g & Hin & Hg & -> & _).
      pose proof (candidate_has_scheme p mpd_content g (or_intror Hin) Hg) as Hs.
      apply has_http_scheme_nonempty in Hs. rewrite Hs in H. discriminate.
    + now apply scan_patterns_none.
  - intros [Hbase Hall]. unfold extract_remote_url.
    now rewrite Hbase, (scan_patterns_discarded _ _ Hall).
Qed.

End CaptureFacts.

(** ** What a run can and cannot end with *)

Section Outcomes.

Variables (w : World) (ffmpeg_path : option string) (url output_name : string).

(** X12: the FFmpeg subprocess is started only for a [file://] URL, with a
    usable FFmpeg, on a manifest that exists and either could not be read
    or holds neither http:// nor https://; the command and the working
    directory are those of lines 266-288. *)
Theorem media_tool_only_for_local_manifest (cmd : list string) (dir : string) :
  snd (process w ffmpeg_path url output_name) = InvokeMediaTool cmd dir ->
  is_local_file url = true
  /\ (exists ffmpeg,
        ffmpeg_path = Some ffmpeg /\ truthy ffmpeg = true
        /\ cmd = ffmpeg_cmd ffmpeg (basename w (local_path_of w url))
                   (abspath w output_name))
  /\ dir = dirname w (abspath w (local_path_of w url))
  /\ path_exists w (mpd_full_path_of w url) = true
  /\ (read_text w (mpd_full_path_of w url) = ReadOSError
      \/ read_text w (mpd_full_path_of w url) = ReadUnicodeDecodeError
      \/ exists mpd_content,
           read_text w (mpd_full_path_of w url) = ReadOk mpd_content
           /\ has_remote_urls mpd_content = false).
Proof.
  unfold process.
  destruct (build_ydl_opts w ffmpeg_path url output_name) as [opts|];
    [|discriminate].
  destruct (is_local_file url); [|discriminate].
  unfold process_local. fold (mpd_full_path_of w url).
  destruct ffmpeg_path as [ffmpeg|]; [|discriminate].
  destruct (truthy ffmpeg) eqn:Hf; cbn [negb]; [|discriminate].
  destruct (path_exists w (mpd_full_path_of w url)) eqn:He; cbn [negb];
    [|discriminate].
  destruct (getsize w (mpd_full_path_of w url)); [|discriminate].
  destruct (read_text w (mpd_full_path_of w url)) as [c| |] eqn:Hr.
  - destruct (has_remote_urls c) eqn:Hc.
    + destruct (extract_remote_url c); discriminate.
    + cbn [snd]. intros H. inversion H. repeat split; eauto 8.
  - cbn [snd]. intros H. inversion H. repeat split; eauto 8.
  - cbn [snd]. intros H. inversion H. repeat split; eauto 8.
Qed.

(** X13: the downloader is given either the URL that was typed, when it is
    not a [file://] URL, and then lines 109-325 list, check and read
    nothing, or a URL extracted from a manifest that was read and holds
    http:// or https://. *)
Theorem downloader_target (target : string) (opts : ydl_opts) :
  snd (process w ffmpeg_path url output_name) = DelegateToDownloader target opts ->
  build_ydl_opts w ffmpeg_path url output_name = Some opts
  /\ ((is_local_file url = false /\ target = url
       /\ fst (process w ffmpeg_path url output_name) = [])
      \/ (is_local_file url = true /\ available ffmpeg_path = true
          /\ exists mpd_content,
               read_text w (mpd_full_path_of w url) = ReadOk mpd_content
               /\ has_remote_urls mpd_content = true
               /\ extract_remote_url mpd_content = Some target)).
Proof.
  unfold process.
  destruct (build_ydl_opts w ffmpeg_path url output_name) as [o|];
    [|discriminate].
  destruct (is_local_file url).
  - unfold process_local. fold (mpd_full_path_of w url).
    destruct ffmpeg_path as [ffmpeg|]; [|discriminate].
    destruct (truthy ffmpeg) eqn:Hf; cbn [negb]; [|discriminate].
    destruct (path_exists w (mpd_full_path_of w url)); cbn [negb];
      [|discriminate].
    destruct (getsize w (mpd_full_path_of w url)); [|discriminate].
    destruct (read_text w (mpd_full_path_of w url)) as [c| |]; try discriminate.
    destruct (has_remote_urls c) eqn:Hc; [|discriminate].
    destruct (extract_remote_url c) as [u|] eqn:Hu; [|discriminate].
    cbn [snd]. intros H. inversion H. subst. split; [reflexivity|]. right.
    repeat split; [exact Hf|]. exists c. repeat split; auto.
  - cbn [snd fst]. intros H. inversion H. subst. split; [reflexivity|]. now left.
Qed.

(** X14: a run opens the manifest only when the URL is a [file://] URL,
    FFmpeg is usable and the file passes the check of line 186; the file
    it opens is the one of line 185. *)
Theorem manifest_is_read_only_after_checks (path : string) :
  In (ReadManifest path) (fst (process w ffmpeg_path url output_name)) ->
  path = mpd_full_path_of w url
  /\ is_local_file url = true
  /\ available ffmpeg_path = true
  /\ path_exists w path = true.
Proof.
  unfold process.
  destruct (build_ydl_opts w ffmpeg_path url output_name) as [o|];
    [|intros []].
  destruct (is_local_file url); [|intros []].
  unfold process_local. fold (mpd_full_path_of w url).
  destruct ffmpeg_path as [ffmpeg|]; [|intros []].
  cbn [available].
  destruct (truthy ffmpeg); cbn [negb]; [|intros []].
  destruct (path_exists w (mpd_full_path_of w url)) eqn:He; cbn [negb].
  2: { cbn. intros [H|[H|[]]]; discriminate. }
  assert (Hin : forall tail,
             In (ReadManifest path)
                ([ListDir (dirname w (abspath w (local_path_of w url)));
                  CheckExists (mpd_full_path_of w url);
                  GetSize (mpd_full_path_of w url);
                  ReadManifest (mpd_full_path_of w url)] ++ tail)%list ->
             (forall e, In e tail -> e <> ReadManifest path) ->
             path = mpd_full_path_of w url).
  { intros tail H Htail. apply in_app_or in H as [H|H].
    - cbn in H. destruct H as [H|[H|[H|[H|[]]]]]; try discriminate.
      now inversion H.
    - now elim (Htail _ H). }
  destruct (getsize w (mpd_full_path_of w url)).
  2: { cbn. intros [H|[H|[H|[]]]]; discriminate. }
  intros H.
  assert (Hp : path = mpd_full_path_of w url).
  { destruct (read_text w (mpd_full_path_of w url)) as [c| |].
    - destruct (has_remote_urls c).
      + destruct (extract_remote_url c); cbn [fst] in H;
          apply (Hin []); try (rewrite List.app_nil_r; exact H); intros e [].
      + cbn [fst] in H. apply (Hin _ H).
        intros e [<-|[]]. discriminate.
    - cbn [fst] in H. apply (Hin _ H). intros e [<-|[]]. discriminate.
    - cbn [fst] in H. apply (Hin _ H). intros e [<-|[]]. discriminate. }
  subst path. auto.
Qed.

End Outcomes.

Lemma process_media_tool_cmd
    (w : World) (ffmpeg_path : option string) (url output_name : string)
    (cmd : list string) (dir : string) :
  snd (process w ffmpeg_path url output_name) = InvokeMediaTool cmd dir ->
  exists ffmpeg,
    cmd = ffmpeg_cmd ffmpeg (basename w (local_path_of w url))
            (abspath w output_name).
Proof.
  unfold process.
  destruct (build_ydl_opts w ffmpeg_path url output_name); [|discriminate].
  destruct (is_local_file url); [|discriminate].
  unfold process_local.
  destruct ffmpeg_path as [ffmpeg|]; [|discriminate].
  destruct (truthy ffmpeg); cbn [negb]; [|discriminate].
  destruct (path_exists w _); cbn [negb]; [|discriminate].
  destruct (getsize w _); [|discriminate].
  destruct (read_text w _) as [c| |].
  - destruct (has_remote_urls c).
    + destruct (extract_remote_url c); discriminate.
    + intros H. inversion H. now exists ffmpeg.
  - intros H. inversion H. now exists ffmpeg.
  - intros H. inversion H. now exists ffmpeg.
Qed.

(** X15: whichever tool a run ends with, it is given the normalized output
    name: yt-dlp as its output template, with mp4 as the merge format, and
    FFmpeg as the last argument, made absolute; that name ends in .mp4,
    letter case apart. *)
Theorem tools_get_the_normalized_name (w : World) (user_input answer : string) :
  endswith (lower (normalize_output_name answer)) ".mp4" = true
  /\ (forall events target opts,
        main w user_input answer = (events, DelegateToDownloader target opts) ->
        outtmpl opts = normalize_output_name answer
        /\ merge_output_format opts = "mp4")
  /\ (forall events cmd dir,
        main w user_input answer = (events, InvokeMediaTool cmd dir) ->
        List.last cmd "" = abspath w (normalize_output_name answer)).
Proof.
  split; [apply normalize_output_name_suffix|].
  unfold main.
  destruct (validate_and_prepare_url w user_input) as [url|msg|].
  2,3: split; intros; discriminate.
  split.
  - intros events target opts H.
    assert (Hs : snd (process w (get_ffmpeg_path w) url
                        (normalize_output_name answer))
                 = DelegateToDownloader target opts) by now rewrite H.
    clear H. unfold process, build_ydl_opts in Hs.
    destruct (startswith url "file://") eqn:Hl.
    + destruct (as_uri w (dirname w (uri_to_path url))); [|discriminate].
      unfold is_local_file in Hs. rewrite Hl in Hs.
      unfold process_local in Hs.
      destruct (get_ffmpeg_path w) as [ffmpeg|]; [|discriminate].
      destruct (truthy ffmpeg); cbn [negb] in Hs; [|discriminate].
      destruct (path_exists w _); cbn [negb] in Hs; [|discriminate].
      destruct (getsize w _); [|discriminate].
      destruct (read_text w _) as [c| |]; try discriminate.
      destruct (has_remote_urls c); [|discriminate].
      destruct (extract_remote_url c); [|discriminate].
      inversion Hs. split; reflexivity.
    + unfold is_local_file in Hs. rewrite Hl in Hs. inversion Hs.
      split; reflexivity.
  - intros events cmd dir H.
    assert (Hs : snd (process w (get_ffmpeg_path w) url
                        (normalize_output_name answer))
                 = InvokeMediaTool cmd dir) by now rewrite H.
    apply process_media_tool_cmd in Hs as (ffmpeg & ->).
    reflexivity.
Qed.

(** ** Quoted input and the media attribute *)

Section QuotedInput.

Lemma rstrip_by_weaken (p q : ascii -> bool) (s : string) :
  (forall c, p c = true -> q c = true) ->
  rstrip_by q s = s -> rstrip_by p s = s.
Proof.
  intros Hpq. induction s as [|c s IH]; [reflexivity|].
  cbn [rstrip_by]. destruct (rstrip_by q s) as [|d r] eqn:E.
  - destruct (q c) eqn:Hc; [discriminate|]. intros H. inversion H. subst s.
    cbn [rstrip_by]. destruct (p c) eqn:Hp; [|reflexivity].
    rewrite (Hpq c Hp) in Hc. discriminate.
  - intros H. inversion H as [Hs]. rewrite Hs in *. rewrite (IH eq_refl).
    now rewrite <- Hs.
Qed.

Lemma rstrip_by_drop (q : ascii -> bool) (s : string) (c : ascii) :
  q c = true -> rstrip_by q (s ++ String c "") = rstrip_by q s.
Proof.
  intros Hc. induction s as [|d s IH].
  - cbn. now rewrite Hc.
  - cbn [append rstrip_by]. now rewrite IH.
Qed.

(** A text that the trimming of all three kinds of character leaves alone
    is left alone by the trimming of one kind. *)
Lemma strip_by_weaken (p q : ascii -> bool) (s : string) :
  (forall c, p c = true -> q c = true) ->
  strip_by q s = s -> strip_by p s = s.
Proof.
  intros Hpq H. destruct s as [|c t]; [reflexivity|].
  pose proof (strip_by_head q _ c t H) as Hc.
  assert (Hpc : p c = false).
  { destruct (p c) eqn:E; [|reflexivity]. rewrite (Hpq c E) in Hc. discriminate. }
  unfold strip_by in *. rewrite (lstrip_by_fixed q c t Hc) in H.
  rewrite (lstrip_by_fixed p c t Hpc). exact (rstrip_by_weaken p q _ Hpq H).
Qed.

Variable path : string.
Hypothesis path_nonempty : path <> "".
Hypothesis path_plain : spec_trim path = path.

Lemma path_kept (p : ascii -> bool) :
  (forall c, p c = true ->
             isspace c || Ascii.eqb c dquote || Ascii.eqb c squote = true) ->
  strip_by p path = path.
Proof. intros Hp. exact (strip_by_weaken p _ path Hp path_plain). Qed.

Lemma path_head : exists c t, path = String c t
  /\ isspace c = false /\ Ascii.eqb c dquote = false /\ Ascii.eqb c squote = false.
Proof.
  destruct path as [|c t] eqn:E; [now elim path_nonempty|].
  exists c, t. pose proof (strip_by_head _ _ c t path_plain) as H.
  apply orb_false_elim in H as [H Hs]. apply orb_false_elim in H as [Hw Hd]. auto.
Qed.

Lemma clean_input_plain : clean_input path = path.
Proof.
  unfold clean_input, strip_chars, strip.
  rewrite (path_kept isspace).
  - rewrite (path_kept (fun c => mem_char c (String dquote ""))).
    + apply path_kept. intros c. cbn [mem_char]. rewrite orb_false_r.
      intros ->. apply orb_true_r.
    + intros c. cbn [mem_char]. rewrite orb_false_r. intros ->.
      now rewrite orb_true_r.
  - intros c ->. reflexivity.
Qed.

(** Stripping [q]s from [q path q], where [q] is one of the two quote
    characters, gives [path]. *)
Lemma strip_quotes (q : ascii) :
  q = dquote \/ q = squote ->
  strip_by (fun c => Ascii.eqb c q) (String q (path ++ String q "")) = path.
Proof.
  intros Hq. destruct path_head as (c & t & E & Hw & Hd & Hs).
  assert (Hcq : Ascii.eqb c q = false) by (destruct Hq; subst q; assumption).
  unfold strip_by. cbn [lstrip_by]. rewrite Ascii.eqb_refl.
  rewrite E. cbn [append lstrip_by]. rewrite Hcq.
  change (String c (t ++ String q "")) with (String c t ++ String q "").
  rewrite rstrip_by_drop by apply Ascii.eqb_refl.
  rewrite <- E. apply (rstrip_by_weaken _ (fun c => isspace c || Ascii.eqb c dquote
                                                    || Ascii.eqb c squote)).
  - intros d Hd'. apply Ascii.eqb_eq in Hd'. subst d.
    destruct Hq; subst q; reflexivity.
  - pose proof path_plain as H. unfold spec_trim, strip_by in H.
    rewrite E in H. rewrite lstrip_by_fixed in H; [now rewrite E|].
    now rewrite Hw, Hd, Hs.
Qed.

(** Stripping characters other than [q] leaves [q path q] alone. *)
Lemma quoted_kept (p : ascii -> bool) (q : ascii) :
  p q = false ->
  strip_by p (String q (path ++ String q "")) = String q (path ++ String q "").
Proof.
  intros Hq. unfold strip_by. rewrite (lstrip_by_fixed p q _ Hq).
  change (String q (path ++ String q "")) with ((String q path) ++ String q "").
  apply rstrip_by_append; [discriminate|]. cbn. now rewrite Hq.
Qed.

Lemma mem_char_single (c q : ascii) : mem_char c (String q "") = Ascii.eqb c q.
Proof. cbn. apply orb_false_r. Qed.

Lemma strip_chars_single (q : ascii) (s : string) :
  strip_chars (String q "") s = strip_by (fun c => Ascii.eqb c q) s.
Proof.
  unfold strip_chars, strip_by.
  assert (Hl : forall t, lstrip_by (fun c => mem_char c (String q "")) t
                         = lstrip_by (fun c => Ascii.eqb c q) t).
  { induction t as [|d t IH]; [reflexivity|]. cbn [lstrip_by].
    now rewrite mem_char_single, IH. }
  assert (Hr : forall t, rstrip_by (fun c => mem_char c (String q "")) t
                         = rstrip_by (fun c => Ascii.eqb c q) t).
  { induction t as [|d t IH]; [reflexivity|]. cbn [rstrip_by].
    now rewrite mem_char_single, IH. }
  now rewrite Hl, Hr.
Qed.

(** X16: a path that neither begins nor ends with whitespace or a quote
    character is cleaned to itself, also when it is typed between double
    quotes or between single quotes, so the three ways of typing it are
    resolved alike. *)
Theorem quoted_path_is_unquoted (w : World) :
  clean_input path = path
  /\ clean_input (String dquote (path ++ String dquote "")) = path
  /\ clean_input (String squote (path ++ String squote "")) = path
  /\ validate_and_prepare_url w (String dquote (path ++ String dquote ""))
     = validate_and_prepare_url w path
  /\ validate_and_prepare_url w (String squote (path ++ String squote ""))
     = validate_and_prepare_url w path.
Proof.
  assert (Hd : clean_input (String dquote (path ++ String dquote "")) = path).
  { unfold clean_input, strip. rewrite (quoted_kept isspace dquote eq_refl).
    rewrite (strip_chars_single dquote), (strip_quotes dquote) by now left.
    fold (strip_chars (String squote "") path).
    pose proof clean_input_plain as H. unfold clean_input, strip in H.
    rewrite (path_kept isspace) in H by (intros c ->; reflexivity).
    rewrite (strip_chars_single dquote) in H.
    rewrite (path_kept (fun c => Ascii.eqb c dquote)) in H; [exact H|].
    intros c ->. now rewrite orb_true_r. }
  assert (Hs : clean_input (String squote (path ++ String squote "")) = path).
  { unfold clean_input, strip. rewrite (quoted_kept isspace squote eq_refl).
    rewrite (strip_chars_single dquote).
    rewrite (quoted_kept (fun c => Ascii.eqb c dquote) squote eq_refl).
    rewrite (strip_chars_single squote). apply strip_quotes. now right. }
  split; [apply clean_input_plain|]. split; [exact Hd|]. split; [exact Hs|].
  destruct path_head as (c & t & E & _).
  unfold validate_and_prepare_url. rewrite Hd, Hs, clean_input_plain.
  rewrite E. split; reflexivity.
Qed.

End QuotedInput.

Section MediaAttribute.

(** A match of the media pattern begins, letter case apart, with
    [media=], the double quote and [http]. *)
Lemma media_re_prefix_http (s g : string) :
  match_here media_re no_capture s = Some g ->
  String.prefix ("media=" ++ String dquote "http") (lower s) = true.
Proof.
  intros H.
  change media_re
    with (lits "media="
          ++ Lit dquote :: GroupOpen
             :: (lits "http"
                 ++ [OptLit "s"%char; Lit ":"%char; Lit "/"%char; Lit "/"%char;
                     PlusNot dquote; GroupClose; Lit dquote]))%list in H.
  apply match_lits_split in H as (p1 & s1 & -> & Hp1 & H).
  cbn [match_here] in H. destruct s1 as [|d s1]; [discriminate|].
  destruct (ci_eq d dquote) eqn:Ed; [|discriminate].
  rewrite ci_eq_delimiter in Ed by (right; now right).
  apply Ascii.eqb_eq in Ed. subst d.
  apply match_lits_split in H as (p2 & s2 & -> & Hp2 & _).
  rewrite lower_append. cbn [lower]. rewrite lower_append, Hp1, Hp2.
  change (lower "media=" ++ String (lower_char dquote) (lower "http" ++ lower s2))
    with (("media=" ++ String dquote "http") ++ lower s2).
  apply prefix_append.
Qed.

(** The first media attribute whose value begins with [http] is what the
    search for the media pattern captures, when its value is a URL. *)
Lemma search_first_http_media (pre scheme body post : string) :
  scheme = "http://" \/ scheme = "https://" ->
  body <> "" ->
  mem_char dquote body = false ->
  ci_contains ("media=" ++ String dquote "http") pre = false ->
  re_search media_re
    (pre ++ "media=" ++ String dquote (scheme ++ body ++ String dquote post))
  = Some (scheme ++ body).
Proof.
  intros Hs Hb Hbody Hpre.
  change ("media=" ++ String dquote (scheme ++ body ++ String dquote post))
    with (String "m" ("edia=" ++ String dquote (scheme ++ body ++ String dquote post))).
  rewrite (re_search_skip media_re "m" ("edia=" ++ String dquote "http")).
  - apply re_search_here.
    apply (match_attribute scheme body Hs Hb "media" post Hbody).
  - intros s g H. apply (media_re_prefix_http s g H).
  - reflexivity.
  - reflexivity.
  - exact Hpre.
Qed.

(** X17: in a text that goes [pre], [media=], a double quote, a URL of
    http:// or https:// and more characters, a double quote, [post], where
    [pre] holds no [media=] followed by a double quote and [http] (letter
    case apart) and the BaseURL pattern has no match, the URL decides when
    it holds no w3.org: stripped, it is the URL extracted, whatever the
    other patterns would give. *)
Theorem first_media_url_is_extracted
    (mpd_content pre scheme body post : string) :
  mpd_content =
    pre ++ "media=" ++ String dquote (scheme ++ body ++ String dquote post) ->
  scheme = "http://" \/ scheme = "https://" ->
  body <> "" ->
  mem_char dquote body = false ->
  ci_contains ("media=" ++ String dquote "http") pre = false ->
  contains "w3.org" (strip (scheme ++ body)) = false ->
  re_search BaseURL_re mpd_content = None ->
  extract_remote_url mpd_content = Some (strip (scheme ++ body)).
Proof.
  intros -> Hscheme Hbody Hquote Hfirst Hw3 Hbase.
  pose proof (search_first_http_media pre scheme body post Hscheme Hbody Hquote
                Hfirst) as Hsearch.
  unfold extract_remote_url. rewrite Hbase.
  unfold media_patterns. cbn [scan_patterns]. rewrite Hsearch, Hw3. cbn [negb].
  assert (Hs : has_http_scheme (strip (scheme ++ body)) = true).
  { apply (candidate_has_scheme media_re _ _ (or_intror (or_introl eq_refl)) Hsearch). }
  now rewrite (has_http_scheme_nonempty _ Hs).
Qed.

End MediaAttribute.

(** ** The further properties on the example machines *)

Section MoreExamples.
Import Nt.

Lemma validate_raises_iff_cleaned_empty_witness :
  ((exists msg,
      validate_and_prepare_url (with_manifest (ReadOk manifest_relative)) "' '"
      = RaisesValueError msg)
   <-> clean_input "' '" = "")
  /\ validate_and_prepare_url (with_manifest (ReadOk manifest_relative)) "' '"
     <> RaisesOther
  /\ (forall url,
        validate_and_prepare_url (with_manifest (ReadOk manifest_relative)) "' '"
        = Returns url -> url <> "").
Proof.
  apply (validate_raises_iff_cleaned_empty
           (with_manifest (ReadOk manifest_relative)) "' '").
  apply machine_laws.
Defined.

Lemma uri_to_path_drops_prefix_witness :
  uri_to_path ("file:///" ++ "home/u/a.mpd") = "home/u/a.mpd"
  /\ (startswith "home/u/a.mpd" "/" = false ->
      local_path_of (Posix.with_manifest (ReadOk manifest_relative))
        ("file:///" ++ "home/u/a.mpd") = "home/u/a.mpd").
Proof.
  apply (uri_to_path_drops_prefix
           (Posix.with_manifest (ReadOk manifest_relative)) "home/u/a.mpd").
  reflexivity.
Defined.

Lemma relative_directory_ends_the_run_witness :
  main (Posix.with_manifest (ReadOk manifest_relative)) "/home/u/a.mpd" "video"
  = ([], UncaughtException).
Proof.
  apply (relative_directory_ends_the_run
           (Posix.with_manifest (ReadOk manifest_relative))
           "/home/u/a.mpd" "video" "home/u/a.mpd").
  - reflexivity.
  - reflexivity.
  - reflexivity.
Defined.

Lemma extracted_url_has_http_scheme_witness :
  has_http_scheme "https://example.com/x" = true /\ "https://example.com/x" <> "".
Proof.
  apply (extracted_url_has_http_scheme manifest_with_BaseURL "https://example.com/x").
  reflexivity.
Defined.

Lemma pattern_url_is_not_on_w3_witness :
  contains "w3.org" "https://cdn.example.org/seg1.ts" = false.
Proof.
  apply (pattern_url_is_not_on_w3
           ("<MPD " ++ attr "xmlns" "http://www.w3.org/2001/XMLSchema"
            ++ "><S " ++ attr "media" "https://cdn.example.org/seg1.ts" ++ "/></MPD>")
           "https://cdn.example.org/seg1.ts").
  - reflexivity.
  - reflexivity.
Defined.

Lemma media_tool_only_for_local_manifest_witness :
  is_local_file a_uri = true
  /\ (exists ffmpeg,
        Some ffmpeg_exe = Some ffmpeg /\ truthy ffmpeg = true
        /\ ffmpeg_cmd ffmpeg_exe "a.mpd" (cwd ++ String backslash "video.mp4")
           = ffmpeg_cmd ffmpeg
               (basename (with_manifest (ReadOk manifest_relative))
                  (local_path_of (with_manifest (ReadOk manifest_relative)) a_uri))
               (abspath (with_manifest (ReadOk manifest_relative)) "video.mp4"))
  /\ "C:" ++ String backslash "m"
     = dirname (with_manifest (ReadOk manifest_relative))
         (abspath (with_manifest (ReadOk manifest_relative))
            (local_path_of (with_manifest (ReadOk manifest_relative)) a_uri))
  /\ path_exists (with_manifest (ReadOk manifest_relative))
       (mpd_full_path_of (with_manifest (ReadOk manifest_relative)) a_uri) = true
  /\ (read_text (with_manifest (ReadOk manifest_relative))
        (mpd_full_path_of (with_manifest (ReadOk manifest_relative)) a_uri)
      = ReadOSError
      \/ read_text (with_manifest (ReadOk manifest_relative))
           (mpd_full_path_of (with_manifest (ReadOk manifest_relative)) a_uri)
         = ReadUnicodeDecodeError
      \/ exists mpd_content,
           read_text (with_manifest (ReadOk manifest_relative))
             (mpd_full_path_of (with_manifest (ReadOk manifest_relative)) a_uri)
           = ReadOk mpd_content
           /\ has_remote_urls mpd_content = false).
Proof.
  apply (media_tool_only_for_local_manifest
           (with_manifest (ReadOk manifest_relative)) (Some ffmpeg_exe) a_uri
           "video.mp4").
  reflexivity.
Defined.

Lemma downloader_target_witness :
  build_ydl_opts (with_manifest (ReadOk manifest_with_BaseURL)) (Some ffmpeg_exe)
    a_uri "video.mp4" = Some (opts_for "video.mp4")
  /\ ((is_local_file a_uri = false /\ "https://example.com/x" = a_uri
       /\ fst (process (with_manifest (ReadOk manifest_with_BaseURL))
                 (Some ffmpeg_exe) a_uri "video.mp4") = [])
      \/ (is_local_file a_uri = true /\ available (Some ffmpeg_exe) = true
          /\ exists mpd_content,
               read_text (with_manifest (ReadOk manifest_with_BaseURL))
                 (mpd_full_path_of (with_manifest (ReadOk manifest_with_BaseURL))
                    a_uri) = ReadOk mpd_content
               /\ has_remote_urls mpd_content = true
               /\ extract_remote_url mpd_content = Some "https://example.com/x")).
Proof.
  apply (downloader_target
           (with_manifest (ReadOk manifest_with_BaseURL)) (Some ffmpeg_exe) a_uri
           "video.mp4" "https://example.com/x" (opts_for "video.mp4")).
  reflexivity.
Defined.

Lemma manifest_is_read_only_after_checks_witness :
  a_mpd = mpd_full_path_of (with_manifest (ReadOk manifest_relative)) a_uri
  /\ is_local_file a_uri = true
  /\ available (Some ffmpeg_exe) = true
  /\ path_exists (with_manifest (ReadOk manifest_relative)) a_mpd = true.
Proof.
  apply (manifest_is_read_only_after_checks
           (with_manifest (ReadOk manifest_relative)) (Some ffmpeg_exe) a_uri
           "video.mp4" a_mpd).
  cbn. right. right. right. left. reflexivity.
Defined.

Lemma quoted_path_is_unquoted_witness :
  clean_input a_mpd = a_mpd
  /\ clean_input (String dquote (a_mpd ++ String dquote "")) = a_mpd
  /\ clean_input (String squote (a_mpd ++ String squote "")) = a_mpd
  /\ validate_and_prepare_url (with_manifest (ReadOk manifest_relative))
       (String dquote (a_mpd ++ String dquote ""))
     = validate_and_prepare_url (with_manifest (ReadOk manifest_relative)) a_mpd
  /\ validate_and_prepare_url (with_manifest (ReadOk manifest_relative))
       (String squote (a_mpd ++ String squote ""))
     = validate_and_prepare_url (with_manifest (ReadOk manifest_relative)) a_mpd.
Proof.
  apply (quoted_path_is_unquoted a_mpd).
  - discriminate.
  - reflexivity.
Defined.

Lemma first_media_url_is_extracted_witness :
  extract_remote_url
    (("<MPD " ++ attr "xmlns" "http://www.w3.org/2001/XMLSchema" ++ "><S "
      ++ attr "media" "seg-$Number$.m4s" ++ "/><S ")
     ++ "media=" ++ String dquote ("https://" ++ "cdn.example.org/seg1.ts "
     ++ String dquote "/></MPD>"))
  = Some "https://cdn.example.org/seg1.ts".
Proof.
  apply (first_media_url_is_extracted _
           ("<MPD " ++ attr "xmlns" "http://www.w3.org/2001/XMLSchema" ++ "><S "
            ++ attr "media" "seg-$Number$.m4s" ++ "/><S ")
           "https://" "cdn.example.org/seg1.ts " "/></MPD>").
  - reflexivity.
  - right. reflexivity.
  - discriminate.
  - reflexivity.
  - reflexivity.
  - reflexivity.
  - reflexivity.
Defined.

End MoreExamples.
